(** * Helsinki transport and Draft Finnish MCP servers

    A shallow embedding of [custom-mcp-helsinki/helsinki_transport.py] and
    [custom-mcp-llm/draft_finnish.py], and the properties their specification
    states about them.

    The two servers are Python programs that post a request over HTTP and
    turn the decoded JSON answer into a line of text.  The embedding has
    three layers:

    - [Py]: the part of the Python runtime the code relies on (dynamically
      typed values, [dict.get], subscripts, truthiness, [str]/[repr],
      [str.strip], [datetime.fromtimestamp] and [strftime]), with exceptions
      as an error result;
    - [Http]: an HTTP POST as a call to a network oracle, every call being
      recorded in a trace;
    - [HelsinkiTransport] and [DraftFinnish]: the functions of the two
      source files, line by line.

    Conventions.  A Python [str] is a Rocq [string] whose characters are read
    as code points below 256.  A Python [int] is a [Z].  A [dict] decoded from
    JSON is an association list in insertion order, looked up from the left.
    Floating-point numbers are kept abstract (class [PyFloat]): the code
    prints and compares them, and nothing proved here depends on how.
    The standard output ([print]) and the resource limits of the interpreter
    (memory, the cap on the digits of an [int] turned into text) are outside
    the model. *)

From Stdlib Require Import ZArith List String Ascii Bool Lia DecimalString.
Import ListNotations.
Open Scope string_scope.
Open Scope Z_scope.
Set Warnings "-register-all".

(** ** Exceptions and results *)

(** The exception classes that the modelled code can meet.  [TimestampError]
    stands for what [datetime.fromtimestamp] raises on an instant it cannot
    represent ([ValueError] for a year outside 1..9999, [OverflowError] or
    [OSError] further out). *)
Inductive exn : Type :=
| KeyError
| IndexError
| TypeError
| AttributeError
| OverflowError
| TimestampError
| JSONDecodeError
| HTTPStatusError (status : Z) (body : string)
| RequestError (message : string).

Inductive result (A : Type) : Type :=
| Returned (a : A)
| Raised (e : exn).

Arguments Returned {A} a.
Arguments Raised {A} e.

Definition bind {A B : Type} (m : result A) (f : A -> result B) : result B :=
  match m with
  | Returned a => f a
  | Raised e => Raised e
  end.

Notation "x <- m ;; k" := (bind m (fun x => k))
  (at level 61, m at next level, right associativity).

Fixpoint mapM {A B : Type} (f : A -> result B) (l : list A) : result (list B) :=
  match l with
  | [] => Returned []
  | a :: l' => b <- f a ;; bs <- mapM f l' ;; Returned (b :: bs)
  end.

(** ** Floating-point numbers, abstractly *)

Class PyFloat : Type := {
  float : Type;
  (** [repr(x)], which is also [str(x)] and [format(x)] *)
  float_repr : float -> string;
  (** [bool(x)], that is [x != 0.0] *)
  float_nonzero : float -> bool;
  (** [x > 0] and [x < 0] *)
  float_pos : float -> bool;
  float_neg : float -> bool;
  float_abs : float -> float;
  float_add : float -> float -> float;
  (** [float(n)]; [None] when the integer is too large ([OverflowError]) *)
  float_of_int : Z -> option float;
  (** the whole seconds [datetime.fromtimestamp] reads from [x];
      [None] for a nan, an infinity or a value beyond [time_t] *)
  float_timet : float -> option Z
}.

(** The runtime without any float value: enough to run the model on JSON
    documents whose numbers are all integers. *)
Definition NoFloat : PyFloat :=
  {| float := Empty_set;
     float_repr := fun x => match x with end;
     float_nonzero := fun x => match x with end;
     float_pos := fun x => match x with end;
     float_neg := fun x => match x with end;
     float_abs := fun x => x;
     float_add := fun x _ => x;
     float_of_int := fun _ => None;
     float_timet := fun x => match x with end |}.

(** ** Characters and strings *)

Definition DQ : string := String "034" EmptyString.
Definition NL : string := String "010" EmptyString.

(** [str(n)] for an [int]. *)
Definition str_of_int (z : Z) : string := NilZero.string_of_int (Z.to_int z).

(** [str.isspace] on one character, for the code points below 256. *)
Definition isspace (c : ascii) : bool :=
  let n := nat_of_ascii c in
  ((9 <=? n) && (n <=? 13) || (28 <=? n) && (n <=? 32)
   || (n =? 133) || (n =? 160))%nat.

Fixpoint lstrip (s : string) : string :=
  match s with
  | String c s' => if isspace c then lstrip s' else s
  | EmptyString => EmptyString
  end.

Fixpoint rstrip (s : string) : string :=
  match s with
  | String c s' =>
      match rstrip s' with
      | EmptyString => if isspace c then EmptyString else String c EmptyString
      | r => String c r
      end
  | EmptyString => EmptyString
  end.

(** [s.strip()] *)
Definition strip (s : string) : string := rstrip (lstrip s).

(** [needle in hay] for two strings. *)
Fixpoint contains_substr (needle hay : string) : bool :=
  prefix needle hay ||
  match hay with
  | String _ hay' => contains_substr needle hay'
  | EmptyString => false
  end.

Fixpoint chars (s : string) : list string :=
  match s with
  | String c s' => String c EmptyString :: chars s'
  | EmptyString => []
  end.

Fixpoint mem_char (c : ascii) (s : string) : bool :=
  match s with
  | String c' s' => Ascii.eqb c c' || mem_char c s'
  | EmptyString => false
  end.

Definition hex_digit (n : nat) : ascii :=
  nth n (list_ascii_of_string "0123456789abcdef") "0"%char.

(** [str.isprintable] on one character, for the code points below 256. *)
Definition isprintable (c : ascii) : bool :=
  let n := nat_of_ascii c in
  ((32 <=? n) && (n <? 127) || (161 <=? n) && negb (n =? 173))%nat.

Definition repr_char (quote c : ascii) : string :=
  let n := nat_of_ascii c in
  if Ascii.eqb c quote || Ascii.eqb c "\"%char then String "\" (String c EmptyString)
  else if (n =? 9)%nat then "\t"
  else if (n =? 10)%nat then "\n"
  else if (n =? 13)%nat then "\r"
  else if isprintable c then String c EmptyString
  else "\x" ++ String (hex_digit (n / 16)) (String (hex_digit (n mod 16)) EmptyString).

Fixpoint repr_chars (quote : ascii) (s : string) : string :=
  match s with
  | String c s' => repr_char quote c ++ repr_chars quote s'
  | EmptyString => EmptyString
  end.

(** [repr(s)] for a [str]: single quotes, unless the text holds a single
    quote and no double quote. *)
Definition repr_str (s : string) : string :=
  let quote :=
    if mem_char "'"%char s && negb (mem_char "034"%char s)
    then "034"%char else "'"%char in
  String quote (repr_chars quote s ++ String quote EmptyString).

(** ** The Python runtime *)

Module Py.
Section Runtime.
Context {F : PyFloat}.

(** The values [json.loads] produces, which are also the values the code
    handles: [None], [bool], [int], [float], [str], [list], [dict]. *)
Inductive pyval : Type :=
| PNone
| PBool (b : bool)
| PInt (z : Z)
| PFloat (x : float)
| PStr (s : string)
| PList (l : list pyval)
| PDict (d : list (string * pyval)).

Fixpoint lookup (k : string) (d : list (string * pyval)) : option pyval :=
  match d with
  | [] => None
  | (k', v) :: d' => if String.eqb k k' then Some v else lookup k d'
  end.

(** [d.get(k, default)] on a [dict]. *)
Definition get_or (d : list (string * pyval)) (k : string) (default : pyval) : pyval :=
  match lookup k d with
  | Some v => v
  | None => default
  end.

(** [bool(v)], the test of [if v], [not v] and [v or w]. *)
Definition truthy (v : pyval) : bool :=
  match v with
  | PNone => false
  | PBool b => b
  | PInt z => negb (z =? 0)
  | PFloat x => float_nonzero x
  | PStr s => negb (String.eqb s EmptyString)
  | PList l => match l with [] => false | _ => true end
  | PDict d => match d with [] => false | _ => true end
  end.

(** [v.get(k, default)]: only a [dict] has the method. *)
Definition get (v : pyval) (k : string) (default : pyval) : result pyval :=
  match v with
  | PDict d => Returned (get_or d k default)
  | _ => Raised AttributeError
  end.

(** [v[k]] for a string key. *)
Definition getitem_key (v : pyval) (k : string) : result pyval :=
  match v with
  | PDict d =>
      match lookup k d with
      | Some x => Returned x
      | None => Raised KeyError
      end
  | _ => Raised TypeError
  end.

(** [v[i]] for an integer index; a negative index counts from the end.  The
    keys of a decoded JSON object are strings, so an integer is never one. *)
Definition getitem_index (v : pyval) (i : Z) : result pyval :=
  match v with
  | PList l =>
      let j := if i <? 0 then i + Z.of_nat (List.length l) else i in
      if j <? 0 then Raised IndexError
      else match nth_error l (Z.to_nat j) with
           | Some x => Returned x
           | None => Raised IndexError
           end
  | PStr s =>
      let j := if i <? 0 then i + Z.of_nat (String.length s) else i in
      if j <? 0 then Raised IndexError
      else match String.get (Z.to_nat j) s with
           | Some c => Returned (PStr (String c EmptyString))
           | None => Raised IndexError
           end
  | PDict _ => Raised KeyError
  | _ => Raised TypeError
  end.

(** [k in v] for a string [k]: a key of a [dict], an element of a [list], a
    substring of a [str]. *)
Definition contains (v : pyval) (k : string) : result bool :=
  match v with
  | PDict d => Returned (match lookup k d with Some _ => true | None => false end)
  | PList l =>
      Returned (existsb (fun x => match x with PStr s => String.eqb s k | _ => false end) l)
  | PStr s => Returned (contains_substr k s)
  | _ => Raised TypeError
  end.

(** [l[:stop]] on a list. *)
Definition list_slice_to {A : Type} (l : list A) (stop : Z) : list A :=
  if stop <? 0 then firstn (Z.to_nat (Z.of_nat (List.length l) + stop)) l
  else firstn (Z.to_nat stop) l.

(** [v[:stop]].  A [dict] refuses a slice ([TypeError] up to Python 3.11,
    [KeyError] from 3.12 on; the model says [TypeError]). *)
Definition slice_to (v : pyval) (stop : Z) : result pyval :=
  match v with
  | PList l => Returned (PList (list_slice_to l stop))
  | PStr s => Returned (PStr (string_of_list_ascii (list_slice_to (list_ascii_of_string s) stop)))
  | _ => Raised TypeError
  end.

(** The elements a [for] loop or a comprehension visits. *)
Definition iter (v : pyval) : result (list pyval) :=
  match v with
  | PList l => Returned l
  | PStr s => Returned (map PStr (chars s))
  | PDict d => Returned (map (fun kv => PStr (fst kv)) d)
  | _ => Raised TypeError
  end.

(** [len(v)] *)
Definition len (v : pyval) : result Z :=
  match v with
  | PList l => Returned (Z.of_nat (List.length l))
  | PStr s => Returned (Z.of_nat (String.length s))
  | PDict d => Returned (Z.of_nat (List.length d))
  | _ => Raised TypeError
  end.

(** [repr(v)] *)
Fixpoint repr (v : pyval) : string :=
  match v with
  | PNone => "None"
  | PBool true => "True"
  | PBool false => "False"
  | PInt z => str_of_int z
  | PFloat x => float_repr x
  | PStr s => repr_str s
  | PList l => "[" ++ String.concat ", " (map repr l) ++ "]"
  | PDict d =>
      "{" ++ String.concat ", "
               (map (fun kv => let '(k, x) := kv in repr_str k ++ ": " ++ repr x) d)
          ++ "}"
  end.

(** [str(v)], which is what an f-string field [{v}] inserts. *)
Definition str (v : pyval) : string :=
  match v with
  | PStr s => s
  | _ => repr v
  end.

(** *** Numbers.  A [bool] is an [int] in arithmetic and comparisons. *)

Definition as_int (v : pyval) : option Z :=
  match v with
  | PInt z => Some z
  | PBool b => Some (if b then 1 else 0)
  | _ => None
  end.

Definition to_float (z : Z) : result float :=
  match float_of_int z with
  | Some x => Returned x
  | None => Raised OverflowError
  end.

(** [a + b] *)
Definition add (a b : pyval) : result pyval :=
  match as_int a, as_int b with
  | Some x, Some y => Returned (PInt (x + y))
  | Some x, None =>
      match b with
      | PFloat y => x' <- to_float x ;; Returned (PFloat (float_add x' y))
      | _ => Raised TypeError
      end
  | None, Some y =>
      match a with
      | PFloat x => y' <- to_float y ;; Returned (PFloat (float_add x y'))
      | _ => Raised TypeError
      end
  | None, None =>
      match a, b with
      | PFloat x, PFloat y => Returned (PFloat (float_add x y))
      | PStr s, PStr t => Returned (PStr (s ++ t))
      | PList l, PList m => Returned (PList (l ++ m)%list)
      | _, _ => Raised TypeError
      end
  end.

(** [v > 0] *)
Definition gt0 (v : pyval) : result bool :=
  match as_int v with
  | Some z => Returned (0 <? z)
  | None =>
      match v with
      | PFloat x => Returned (float_pos x)
      | _ => Raised TypeError
      end
  end.

(** [v < 0] *)
Definition lt0 (v : pyval) : result bool :=
  match as_int v with
  | Some z => Returned (z <? 0)
  | None =>
      match v with
      | PFloat x => Returned (float_neg x)
      | _ => Raised TypeError
      end
  end.

(** [abs(v)] *)
Definition abs (v : pyval) : result pyval :=
  match as_int v with
  | Some z => Returned (PInt (Z.abs z))
  | None =>
      match v with
      | PFloat x => Returned (PFloat (float_abs x))
      | _ => Raised TypeError
      end
  end.

(** *** Local time *)

(** The time zone of the process: the offset from UTC, in seconds, that
    the C library's [localtime] applies at a given POSIX instant. *)
Record Zone : Type := { utcoffset : Z -> Z }.

Definition UTC : Zone := {| utcoffset := fun _ => 0 |}.

(** A naive [datetime], as far as [strftime("%H:%M:%S")] reads it. *)
Record datetime : Type := { hour : Z; minute : Z; second : Z }.

(** 0001-01-01 00:00:00 and 9999-12-31 23:59:59 in seconds from the epoch:
    the span of [datetime.MINYEAR .. datetime.MAXYEAR]. *)
Definition MIN_SECONDS : Z := (1 - 719163) * 86400.
Definition MAX_SECONDS : Z := (3652059 - 719163) * 86400 + 86399.

(** The local wall-clock reading of instant [u], in seconds from the epoch
    ([local] of [_datetimemodule.c]); it fails outside the supported years.
    Instants before the epoch are read like the others, as on Linux. *)
Definition local (zone : Zone) (u : Z) : result Z :=
  let l := u + utcoffset zone u in
  if (MIN_SECONDS <=? l) && (l <=? MAX_SECONDS) then Returned l
  else Raised TimestampError.

Definition max_fold_seconds : Z := 24 * 3600.

(** [datetime.fromtimestamp(t)] for an integer [t]: the local reading, then
    the probe one day earlier (and at the transition, if the offset went
    down) by which CPython computes the [fold] attribute. *)
Definition fromtimestamp_int (zone : Zone) (t : Z) : result datetime :=
  result_seconds <- local zone t ;;
  probe_seconds <- local zone (t - max_fold_seconds) ;;
  let transition := result_seconds - probe_seconds - max_fold_seconds in
  _ <- (if transition <? 0 then local zone (t + transition) else Returned 0) ;;
  let s := result_seconds mod 86400 in
  Returned {| hour := s / 3600; minute := (s mod 3600) / 60; second := s mod 60 |}.

(** [datetime.fromtimestamp(v)] *)
Definition fromtimestamp (zone : Zone) (v : pyval) : result datetime :=
  match as_int v with
  | Some t => fromtimestamp_int zone t
  | None =>
      match v with
      | PFloat x =>
          match float_timet x with
          | Some t => fromtimestamp_int zone t
          | None => Raised TimestampError
          end
      | _ => Raised TypeError
      end
  end.

(** A [%H], [%M] or [%S] field: two digits, zero-padded. *)
Definition pad2 (n : Z) : string :=
  if n <? 10 then "0" ++ str_of_int n else str_of_int n.

(** [dt.strftime("%H:%M:%S")] *)
Definition strftime_HMS (dt : datetime) : string :=
  pad2 (hour dt) ++ ":" ++ pad2 (minute dt) ++ ":" ++ pad2 (second dt).

End Runtime.
End Py.

(** ** HTTP *)

Module Http.
Section Http.
Context {F : PyFloat}.
Import Py.

(** What [httpx.AsyncClient.post] sends. *)
Record Request : Type := {
  url : string;
  headers : list (string * string);
  json : pyval;
  timeout : Z
}.

(** What comes back: [body] is the decoded JSON document, or [None] when
    the text of the response is not valid JSON. *)
Record Response : Type := {
  status_code : Z;
  text : string;
  body : option pyval
}.

(** The answer of the network to one request: no response at all (DNS,
    connect or timeout failure, an [httpx.RequestError] with the given
    message), or a response. *)
Inductive Outcome : Type :=
| NoResponse (message : string)
| Reply (r : Response).

Definition Network : Type := Request -> Outcome.

(** A computation that may post requests: it runs against a network and
    yields the requests it sent, in order, and its result. *)
Definition IO (A : Type) : Type := Network -> list Request * result A.

Definition ret {A : Type} (a : A) : IO A := fun _ => ([], Returned a).

Definition lift {A : Type} (r : result A) : IO A := fun _ => ([], r).

Definition bindIO {A B : Type} (m : IO A) (f : A -> IO B) : IO B :=
  fun net =>
    match m net with
    | (sent, Returned a) =>
        let '(sent', r) := f a net in ((sent ++ sent')%list, r)
    | (sent, Raised e) => (sent, Raised e)
    end.

(** [try: m  except ...: handler]: [handler e] is [None] when no clause
    matches [e], which then propagates. *)
Definition try {A : Type} (m : IO A) (handler : exn -> option (IO A)) : IO A :=
  fun net =>
    match m net with
    | (sent, Returned a) => (sent, Returned a)
    | (sent, Raised e) =>
        match handler e with
        | Some h => let '(sent', r) := h net in ((sent ++ sent')%list, r)
        | None => (sent, Raised e)
        end
    end.

(** [await client.post(...)] *)
Definition post (req : Request) : IO Response :=
  fun net =>
    ([req], match net req with
            | NoResponse message => Raised (RequestError message)
            | Reply r => Returned r
            end).

(** [response.raise_for_status()]: any status outside 2xx is an error
    (httpx tests [is_success]). *)
Definition raise_for_status (r : Response) : result unit :=
  if (200 <=? status_code r) && (status_code r <=? 299) then Returned tt
  else Raised (HTTPStatusError (status_code r) (text r)).

(** [response.json()] *)
Definition response_json (r : Response) : result pyval :=
  match body r with
  | Some v => Returned v
  | None => Raised JSONDecodeError
  end.

End Http.
End Http.

Notation "x <~ m ;; k" := (Http.bindIO m (fun x => k))
  (at level 61, m at next level, right associativity).

(** [a or b], evaluated left to right, stopping at the first true test. *)
Definition orelse (a b : result bool) : result bool :=
  x <- a ;; if x then Returned true else b.

(** ** [helsinki_transport.py] *)

Module HelsinkiTransport.
Section Server.
Context {F : PyFloat}.
Import Py Http.

(** The environment when the module is imported, and the time zone of the
    process. *)
Variable environ : string -> option string.
Variable zone : Zone.

(** [os.getenv(key, default)] *)
Definition getenv (key default : string) : string :=
  match environ key with
  | Some v => v
  | None => default
  end.

Definition DIGITRANSIT_API_URL : string :=
  "https://api.digitransit.fi/routing/v2/hsl/gtfs/v1".
Definition DIGITRANSIT_API_KEY : string := getenv "DIGITRANSIT_API_KEY" "your_key".
Definition DEFAULT_STOP_ID : string := getenv "DEFAULT_STOP_ID" "HSL:1040129".
Definition USER_AGENT : string := "helsinki-transport-mcp/1.0".

(** Every exception of the request is caught and turned into [None]. *)
Definition make_graphql_request (query : string) : IO pyval :=
  let headers :=
    [("User-Agent", USER_AGENT);
     ("Content-Type", "application/json");
     ("digitransit-subscription-key", DIGITRANSIT_API_KEY)] in
  try (response <~ post {| url := DIGITRANSIT_API_URL;
                           headers := headers;
                           json := PDict [("query", PStr query)];
                           timeout := 30 |} ;;
       _ <~ lift (raise_for_status response) ;;
       lift (response_json response))
      (fun _ => Some (ret PNone)).

(** The annotations say [int]; the callers pass what the JSON document
    holds, so the arguments are values of any type. *)
Definition format_time (service_day seconds : pyval) : result string :=
  timestamp <- add service_day seconds ;;
  dt <- fromtimestamp zone timestamp ;;
  Returned (strftime_HMS dt).

Definition format_departure (stoptime service_day : pyval) : result string :=
  scheduled_dep <- get stoptime "scheduledDeparture" (PInt 0) ;;
  realtime_dep <- get stoptime "realtimeDeparture" scheduled_dep ;;
  delay <- get stoptime "departureDelay" (PInt 0) ;;
  headsign <- get stoptime "headsign" (PStr "Unknown destination") ;;
  trip <- get stoptime "trip" (PDict []) ;;
  route_short_name <- get trip "routeShortName" (PStr "N/A") ;;
  scheduled_time <- format_time service_day scheduled_dep ;;
  late <- gt0 delay ;;
  time_info <-
    (if late then
       Returned (scheduled_time ++ " (Delayed by " ++ str delay ++ "s)")
     else
       early <- lt0 delay ;;
       if early then
         a <- abs delay ;;
         Returned (scheduled_time ++ " (Early by " ++ str a ++ "s)")
       else Returned scheduled_time) ;;
  Returned (time_info ++ " - Route " ++ str route_short_name ++ " to " ++ str headsign).

Definition format_arrival (stoptime service_day : pyval) : result string :=
  scheduled_arr <- get stoptime "scheduledArrival" (PInt 0) ;;
  realtime_arr <- get stoptime "realtimeArrival" scheduled_arr ;;
  delay <- get stoptime "arrivalDelay" (PInt 0) ;;
  headsign <- get stoptime "headsign" (PStr "Unknown origin") ;;
  trip <- get stoptime "trip" (PDict []) ;;
  route_short_name <- get trip "routeShortName" (PStr "N/A") ;;
  scheduled_time <- format_time service_day scheduled_arr ;;
  late <- gt0 delay ;;
  time_info <-
    (if late then
       Returned (scheduled_time ++ " (Delayed by " ++ str delay ++ "s)")
     else
       early <- lt0 delay ;;
       if early then
         a <- abs delay ;;
         Returned (scheduled_time ++ " (Early by " ++ str a ++ "s)")
       else Returned scheduled_time) ;;
  Returned (time_info ++ " - Route " ++ str route_short_name ++ " from " ++ str headsign).

(** The test [not data or "data" not in data or not data["data"].get("stop")]
    of the three stop operations. *)
Definition no_stop (data : pyval) : result bool :=
  orelse (Returned (negb (truthy data)))
    (orelse (has <- contains data "data" ;; Returned (negb has))
       (d <- getitem_key data "data" ;;
        stop <- get d "stop" PNone ;;
        Returned (negb (truthy stop)))).

Definition departures_query (stop_id : string) (limit : Z) : string :=
"
    {
      stop(id: " ++ DQ ++ stop_id ++ DQ ++ ") {
        name
        gtfsId
        stoptimesWithoutPatterns(numberOfDepartures: " ++ str_of_int limit ++ ") {
          scheduledDeparture
          realtimeDeparture
          departureDelay
          realtime
          serviceDay
          headsign
          trip {
            routeShortName
            route {
              shortName
              longName
            }
          }
        }
      }
    }
    ".

(** The defaults of the arguments are [DEFAULT_STOP_ID] and 10. *)
Definition get_departures (stop_id : string) (limit : Z) : IO string :=
  let query := departures_query stop_id limit in
  data <~ make_graphql_request query ;;
  lift (
    unable <- no_stop data ;;
    if unable then Returned ("Unable to fetch departures for stop ID: " ++ stop_id) else
    d <- getitem_key data "data" ;;
    stop_data <- getitem_key d "stop" ;;
    stop_name <- get stop_data "name" (PStr "Unknown stop") ;;
    stoptimes <- get stop_data "stoptimesWithoutPatterns" (PList []) ;;
    if negb (truthy stoptimes) then
      Returned ("No departures found for stop: " ++ str stop_name ++ " (" ++ stop_id ++ ")")
    else
    first <- getitem_index stoptimes 0 ;;
    service_day <- get first "serviceDay" (PInt 0) ;;
    sts <- iter stoptimes ;;
    departures <- mapM (fun st => format_departure st service_day) sts ;;
    Returned ("Departures from " ++ str stop_name ++ " (" ++ stop_id ++ "):" ++ NL
              ++ String.concat NL departures)).

Definition timetable_query (stop_id : string) (start_time time_range : Z) : string :=
"
    {
      stop(id: " ++ DQ ++ stop_id ++ DQ ++ ") {
        name
        gtfsId
        stoptimesWithoutPatterns(
          startTime: " ++ str_of_int start_time ++ "
          timeRange: " ++ str_of_int time_range ++ "
          numberOfDepartures: 50
        ) {
          scheduledDeparture
          realtimeDeparture
          departureDelay
          realtime
          serviceDay
          headsign
          trip {
            routeShortName
            route {
              shortName
              longName
            }
          }
        }
      }
    }
    ".

(** The defaults of the arguments are [DEFAULT_STOP_ID], 0 and 3600.  The
    [print] calls write to the standard output and are left out. *)
Definition get_timetable (stop_id : string) (start_time time_range : Z) : IO string :=
  let query := timetable_query stop_id start_time time_range in
  data <~ make_graphql_request query ;;
  lift (
    unable <- no_stop data ;;
    if unable then Returned ("Unable to fetch timetable for stop ID: " ++ stop_id) else
    d <- getitem_key data "data" ;;
    stop_data <- getitem_key d "stop" ;;
    stop_name <- get stop_data "name" (PStr "Unknown stop") ;;
    stoptimes <- get stop_data "stoptimesWithoutPatterns" (PList []) ;;
    if negb (truthy stoptimes) then
      Returned ("No timetable entries found for stop: " ++ str stop_name
                ++ " (" ++ stop_id ++ ")")
    else
    first <- getitem_index stoptimes 0 ;;
    service_day <- get first "serviceDay" (PInt 0) ;;
    sts <- iter stoptimes ;;
    departures <- mapM (fun st => format_departure st service_day) sts ;;
    let time_range_minutes := time_range / 60 in
    Returned ("Timetable for " ++ str stop_name ++ " (" ++ stop_id ++ ") - Next "
              ++ str_of_int time_range_minutes ++ " minutes:" ++ NL
              ++ String.concat NL departures)).

Definition stop_info_query (stop_id : string) : string :=
"
    {
      stop(id: " ++ DQ ++ stop_id ++ DQ ++ ") {
        name
        gtfsId
        code
        desc
        lat
        lon
        zoneId
        locationType
        platformCode
      }
    }
    ".

Definition get_stop_info (stop_id : string) : IO string :=
  let query := stop_info_query stop_id in
  data <~ make_graphql_request query ;;
  lift (
    unable <- no_stop data ;;
    if unable then Returned ("Unable to fetch information for stop ID: " ++ stop_id) else
    d <- getitem_key data "data" ;;
    stop <- getitem_key d "stop" ;;
    name <- get stop "name" (PStr "N/A") ;;
    gtfsId <- get stop "gtfsId" (PStr "N/A") ;;
    code <- get stop "code" (PStr "N/A") ;;
    desc <- get stop "desc" (PStr "N/A") ;;
    lat <- get stop "lat" (PStr "N/A") ;;
    lon <- get stop "lon" (PStr "N/A") ;;
    zoneId <- get stop "zoneId" (PStr "N/A") ;;
    platformCode <- get stop "platformCode" (PStr "N/A") ;;
    Returned ("Stop Information:" ++ NL
              ++ "Name: " ++ str name ++ NL
              ++ "GTFS ID: " ++ str gtfsId ++ NL
              ++ "Code: " ++ str code ++ NL
              ++ "Description: " ++ str desc ++ NL
              ++ "Location: " ++ str lat ++ ", " ++ str lon ++ NL
              ++ "Zone: " ++ str zoneId ++ NL
              ++ "Platform: " ++ str platformCode ++ NL)).

Definition find_stop_query (name : string) : string :=
"
    {
      stops(name: " ++ DQ ++ name ++ DQ ++ ") {
        gtfsId
        name
        code
        desc
        lat
        lon
      }
    }
    ".

(** The body of the loop of [find_stop]: the text appended for one stop. *)
Definition stop_entry (stop : pyval) : result string :=
  stop_id <- get stop "gtfsId" (PStr "N/A") ;;
  stop_name <- get stop "name" (PStr "N/A") ;;
  code <- get stop "code" (PStr "N/A") ;;
  desc <- get stop "desc" (PStr "N/A") ;;
  lat <- get stop "lat" (PStr "N/A") ;;
  lon <- get stop "lon" (PStr "N/A") ;;
  Returned ("ID: " ++ str stop_id ++ NL
            ++ "  Name: " ++ str stop_name ++ NL
            ++ "  Code: " ++ str code ++ NL
            ++ "  Location: " ++ str desc ++ NL
            ++ "  Coordinates: " ++ str lat ++ ", " ++ str lon).

(** The default of [limit] is 10. *)
Definition find_stop (name : string) (limit : Z) : IO string :=
  let query := find_stop_query name in
  data <~ make_graphql_request query ;;
  lift (
    unable <- orelse (Returned (negb (truthy data)))
                (has <- contains data "data" ;; Returned (negb has)) ;;
    if unable then Returned ("Unable to search for stops with name: " ++ name) else
    d <- getitem_key data "data" ;;
    stops <- get d "stops" (PList []) ;;
    if negb (truthy stops) then Returned ("No stops found matching: " ++ name) else
    stops <- slice_to stops limit ;;
    elems <- iter stops ;;
    results <- mapM stop_entry elems ;;
    n <- len stops ;;
    let header := "Found " ++ str_of_int n ++ " stop(s) matching '" ++ name ++ "':"
                  ++ NL ++ NL in
    Returned (header ++ String.concat (NL ++ NL) results)).

End Server.
End HelsinkiTransport.

(** ** [draft_finnish.py] *)

Module DraftFinnish.
Section Server.
Context {F : PyFloat}.
Import Py Http.

(** The environment when the module is imported. *)
Variable import_environ : string -> option string.

(** [os.getenv(key, default)] *)
Definition getenv (environ : string -> option string) (key default : string) : string :=
  match environ key with
  | Some v => v
  | None => default
  end.

Definition VLLM_ENDPOINT_ENV : string := "VLLM_ENDPOINT".
Definition VLLM_MODEL_ENV : string := "VLLM_MODEL".
Definition VLLM_API_KEY_ENV : string := "VLLM_API_KEY".
Definition DEFAULT_MODEL : string :=
  getenv import_environ VLLM_MODEL_ENV "meta-llama/Llama-3.1-8B-Instruct".
Definition DEFAULT_SYSTEM_PROMPT : string :=
  getenv import_environ "DRAFT_FINNISH_SYSTEM_PROMPT"
    ("Olet avulias suomenkielinen avustaja. Vastaa suomeksi, ellei toisin pyydet"
     ++ String "228" ".").

(** No exception is caught here. *)
Definition _post_to_vllm (endpoint : string) (payload : pyval)
    (headers : list (string * string)) : IO pyval :=
  response <~ post {| url := endpoint; headers := headers;
                      json := payload; timeout := 60 |} ;;
  _ <~ lift (raise_for_status response) ;;
  lift (response_json response).

Definition nonempty (s : string) : bool := negb (String.eqb s EmptyString).

Definition _build_messages (prompt : string) (system_prompt : option string) : list pyval :=
  let system :=
    match system_prompt with
    | Some s => if nonempty s then s else DEFAULT_SYSTEM_PROMPT
    | None => DEFAULT_SYSTEM_PROMPT
    end in
  ((if nonempty system
    then [PDict [("role", PStr "system"); ("content", PStr system)]]
    else [])
   ++ [PDict [("role", PStr "user"); ("content", PStr prompt)]])%list.

(** [completion.strip()]: only a [str] has the method. *)
Definition strip_method (completion : pyval) : result string :=
  match completion with
  | PStr s => Returned (strip s)
  | _ => Raised AttributeError
  end.

(** [environ] is the environment at the time of the call; the defaults of
    [temperature], [max_tokens] and [system_prompt] are 0.7, 1024 and [None];
    the caller may pass an [int] or a [float] for the temperature, which goes
    into the payload as it is.  A [return] inside
    an [except] clause is an [inl] that the code after the [try] passes on. *)
Definition draft_finnish (environ : string -> option string) (prompt : string)
    (temperature : pyval) (max_tokens : Z) (system_prompt : option string) : IO string :=
  let endpoint := environ VLLM_ENDPOINT_ENV in
  match endpoint with
  | None | Some EmptyString =>
      ret ("VLLM endpoint is not configured. Set the environment variable "
           ++ VLLM_ENDPOINT_ENV ++ " to the vLLM /v1/chat/completions URL.")
  | Some endpoint =>
      let model := getenv environ VLLM_MODEL_ENV DEFAULT_MODEL in
      let api_key := environ VLLM_API_KEY_ENV in
      let headers :=
        ([("Content-Type", "application/json")]
         ++ match api_key with
            | Some key =>
                if nonempty key then [("Authorization", ("Bearer " ++ key)%string)] else []
            | None => []
            end)%list in
      let payload :=
        PDict [("model", PStr model);
               ("messages", PList (_build_messages prompt system_prompt));
               ("temperature", temperature);
               ("max_tokens", PInt max_tokens)] in
      outcome <~
        try (data <~ _post_to_vllm endpoint payload headers ;; ret (inr data))
            (fun exc =>
               match exc with
               | HTTPStatusError status_code text =>
                   Some (ret (inl ("vLLM returned an error: "
                                   ++ str_of_int status_code ++ " " ++ text)))
               | RequestError message =>
                   Some (ret (inl ("Unable to reach vLLM endpoint at " ++ endpoint
                                   ++ ": " ++ message)))
               | _ => None
               end) ;;
      match outcome with
      | inl error_text => ret error_text
      | inr data =>
          outcome <~
            try (lift (choices <- getitem_key data "choices" ;;
                       choice <- getitem_index choices 0 ;;
                       message <- getitem_key choice "message" ;;
                       completion <- getitem_key message "content" ;;
                       Returned (inr completion)))
                (fun exc =>
                   match exc with
                   | KeyError | IndexError | TypeError =>
                       Some (ret (inl ("Unexpected response format from vLLM: "
                                       ++ str data)))
                   | _ => None
                   end) ;;
          match outcome with
          | inl error_text => ret error_text
          | inr completion => lift (strip_method completion)
          end
      end
  end.

End Server.
End DraftFinnish.

(** ** What the specification says, in its own words *)

Import Py Http.

(** The delay annotation: [" (Delayed by {d}s)"] when [d > 0],
    [" (Early by {|d|}s)"] when [d < 0], nothing when [d = 0]. *)
Definition delay_annotation (d : Z) : string :=
  match (d ?= 0)%Z with
  | Gt => " (Delayed by " ++ str_of_int d ++ "s)"
  | Lt => " (Early by " ++ str_of_int (Z.abs d) ++ "s)"
  | Eq => EmptyString
  end.

Definition digit (n : Z) : ascii := ascii_of_nat (48 + Z.to_nat n).

Definition two_digits (n : Z) : string :=
  String (digit (n / 10)) (String (digit (n mod 10)) EmptyString).

(** The zero-padded 24-hour reading [HH:MM:SS] of a count of seconds. *)
Definition wall_clock (seconds : Z) : string :=
  let s := seconds mod 86400 in
  two_digits (s / 3600) ++ ":" ++ two_digits (s / 60 mod 60) ++ ":" ++ two_digits (s mod 60).

(** The local reading of instant [u] lies in the years 1 to 9999. *)
Definition in_years (zone : Zone) (u : Z) : Prop :=
  MIN_SECONDS <= u + utcoffset zone u <= MAX_SECONDS.

(** The instants [datetime] can take from a timestamp: the instant itself
    and the instant a day before lie in the years 1 to 9999 of local time,
    and so does the instant moved back by the drop of the zone offset over
    that day, if it dropped. *)
Definition representable (zone : Zone) (t : Z) : Prop :=
  in_years zone t /\
  in_years zone (t - 86400) /\
  (utcoffset zone t < utcoffset zone (t - 86400) ->
   in_years zone (t + (utcoffset zone t - utcoffset zone (t - 86400)))).

(** Two records that differ at most in field [k]. *)
Definition agree_except {F : PyFloat} (k : string) (a b : list (string * pyval)) : Prop :=
  forall k', k' <> k -> lookup k' a = lookup k' b.

(** The record [d] after the assignment [d[k] = v]. *)
Fixpoint with_field {F : PyFloat} (k : string) (v : pyval) (d : list (string * pyval))
  : list (string * pyval) :=
  match d with
  | [] => [(k, v)]
  | (k', x) :: d' =>
      if String.eqb k k' then (k', v) :: d' else (k', x) :: with_field k v d'
  end.

(** The path [choices[0].message.content] of a chat completion. *)
Definition completion_path {F : PyFloat} (data : pyval) : result pyval :=
  choices <- getitem_key data "choices" ;;
  choice <- getitem_index choices 0 ;;
  message <- getitem_key choice "message" ;;
  getitem_key message "content".

(** ** Sample data *)

(** The scenario of the specification: scheduled at 600 s, 30 s late, route
    5 to X, on service day 0. *)
Definition scenario {F : PyFloat} : list (string * pyval) :=
  [("scheduledDeparture", PInt 600); ("departureDelay", PInt 30);
   ("headsign", PStr "X"); ("trip", PDict [("routeShortName", PStr "5")])].

(** A stop-time that leaves 30 s late and arrives 15 s early. *)
Definition late_and_early {F : PyFloat} : list (string * pyval) :=
  [("scheduledArrival", PInt 540); ("arrivalDelay", PInt (-15));
   ("scheduledDeparture", PInt 600); ("departureDelay", PInt 30);
   ("headsign", PStr "X"); ("trip", PDict [("routeShortName", PStr "5")])].

(** An environment that sets only [VLLM_ENDPOINT]. *)
Definition only_endpoint (endpoint : string) : string -> option string :=
  fun key => if String.eqb key "VLLM_ENDPOINT" then Some endpoint else None.

Definition empty_environ : string -> option string := fun _ => None.

(** A network that answers every request with status 200 and the given
    JSON document, and one that answers 200 with a text that is not JSON. *)
Definition answers {F : PyFloat} (document : pyval) : Network :=
  fun _ => Reply {| status_code := 200; text := EmptyString; body := Some document |}.

Definition answers_html {F : PyFloat} : Network :=
  fun _ => Reply {| status_code := 200; text := "<html>Bad gateway</html>"; body := None |}.

Definition unreachable {F : PyFloat} : Network := fun _ => NoResponse "connection refused".

(** [{"choices": [{"message": {"content": content}}]}] *)
Definition completion {F : PyFloat} (content : pyval) : pyval :=
  PDict [("choices", PList [PDict [("message", PDict [("content", content)])]])].

(** Three stops as the routing API describes them, without coordinates. *)
Definition three_stops {F : PyFloat} : list (list (string * pyval)) :=
  [[("gtfsId", PStr "HSL:1040129"); ("name", PStr "Arkadian puisto"); ("code", PStr "H0108")];
   [("gtfsId", PStr "HSL:1040130"); ("name", PStr "Arkadian puisto"); ("code", PStr "H0109")];
   [("gtfsId", PStr "HSL:1040131"); ("name", PStr "Arkadiankatu"); ("code", PNone)]].

(** [{"data": {"stops": stops}}] and [{"data": {"stop": stop}}] *)
Definition stops_document {F : PyFloat} (stops : list (list (string * pyval))) : pyval :=
  PDict [("data", PDict [("stops", PList (map PDict stops))])].

Definition stop_document {F : PyFloat} (stop : list (string * pyval)) : pyval :=
  PDict [("data", PDict [("stop", PDict stop)])].

(** A stop with no stop-time, and one with two stop-times that name
    different service days. *)
Definition quiet_stop {F : PyFloat} : list (string * pyval) :=
  [("name", PStr "Arkadian puisto"); ("gtfsId", PStr "HSL:1040129");
   ("stoptimesWithoutPatterns", PList [])].

Definition busy_stop {F : PyFloat} : list (string * pyval) :=
  [("name", PStr "Arkadian puisto"); ("gtfsId", PStr "HSL:1040129");
   ("stoptimesWithoutPatterns",
    PList [PDict [("scheduledDeparture", PInt 600); ("departureDelay", PInt 30);
                  ("serviceDay", PInt 3600); ("headsign", PStr "X");
                  ("trip", PDict [("routeShortName", PStr "5")])];
           PDict [("scheduledDeparture", PInt 900); ("departureDelay", PInt 0);
                  ("serviceDay", PInt 7200); ("headsign", PStr "Y");
                  ("trip", PDict [("routeShortName", PStr "7")])]])].

(** ** Further notions for the properties of the code *)

(** [int], [bool] and [float] are the numbers; a [dict] is an object. *)
Definition is_number {F : PyFloat} (v : pyval) : bool :=
  match v with
  | PInt _ | PBool _ | PFloat _ => true
  | _ => false
  end.

Definition is_object {F : PyFloat} (v : pyval) : bool :=
  match v with
  | PDict _ => true
  | _ => false
  end.





(** The network did not deliver a JSON document: no response, a status
    outside 2xx, or a text that is not JSON. *)
Definition delivers_nothing {F : PyFloat} (net : Network) : Prop :=
  forall req,
    match net req with
    | NoResponse _ => True
    | Reply r => status_code r < 200 \/ 299 < status_code r \/ body r = None
    end.

(** A network that answers every request with a status and a text. *)
Definition answers_status {F : PyFloat} (status : Z) (text : string) : Network :=
  fun _ => Reply {| status_code := status; text := text; body := None |}.

(** What a GraphQL server sends when the query fails: errors without data,
    and errors with a null data. *)
Definition errors_document {F : PyFloat} : pyval :=
  PDict [("errors", PList [PDict [("message", PStr "Validation error")]])].

Definition null_data_document {F : PyFloat} : pyval :=
  PDict [("errors", PList [PDict [("message", PStr "Internal error")]]);
         ("data", PNone)].

(** The answer for a stop identifier that the API does not know. *)
Definition unknown_stop_document {F : PyFloat} : pyval :=
  PDict [("data", PDict [("stop", PNone)])].

(** A stop of which the API tells the name and the identifier, and a null
    code. *)
Definition sparse_stop {F : PyFloat} : list (string * pyval) :=
  [("name", PStr "Arkadian puisto"); ("gtfsId", PStr "HSL:1040129"); ("code", PNone)].

(** A stop whose second stop-time is null. *)
Definition broken_stop {F : PyFloat} : list (string * pyval) :=
  [("name", PStr "Arkadian puisto");
   ("stoptimesWithoutPatterns",
    PList [PDict [("scheduledDeparture", PInt 600); ("serviceDay", PInt 0)]; PNone])].


(** The two kinds of message of a conversation. *)
Definition system_message {F : PyFloat} (text : string) : pyval :=
  PDict [("role", PStr "system"); ("content", PStr text)].

Definition user_message {F : PyFloat} (text : string) : pyval :=
  PDict [("role", PStr "user"); ("content", PStr text)].


(** ** Strings and clock readings *)

Lemma append_assoc (a b c : string) : ((a ++ b) ++ c = a ++ (b ++ c))%string.
Proof.
  induction a as [|ch a IH]; simpl; [reflexivity | now rewrite IH].
Qed.

Lemma pad2_below_100 :
  forallb (fun n => String.eqb (pad2 (Z.of_nat n)) (two_digits (Z.of_nat n))) (seq 0 100) = true.
Proof. vm_compute. reflexivity. Qed.

Lemma pad2_two_digits (n : Z) : 0 <= n < 100 -> pad2 n = two_digits n.
Proof.
  intros Hn.
  pose proof pad2_below_100 as H.
  rewrite forallb_forall in H.
  specialize (H (Z.to_nat n)).
  rewrite Z2Nat.id in H by lia.
  apply String.eqb_eq, H, in_seq. lia.
Qed.

Lemma minute_of_day (s : Z) : (s mod 3600) / 60 = s / 60 mod 60.
Proof.
  change 3600 with (60 * 60).
  rewrite Z.rem_mul_r by lia.
  rewrite Z.add_comm, Z.mul_comm, Z.div_add_l by lia.
  rewrite (Z.div_small (s mod 60)) by (apply Z.mod_pos_bound; lia).
  lia.
Qed.

Lemma strftime_wall_clock (l : Z) :
  let s := l mod 86400 in
  strftime_HMS {| hour := s / 3600; minute := (s mod 3600) / 60; second := s mod 60 |}
  = wall_clock l.
Proof.
  intros s. unfold strftime_HMS, wall_clock. cbn [hour minute second].
  fold s.
  assert (Hs : 0 <= s < 86400) by (apply Z.mod_pos_bound; lia).
  rewrite minute_of_day.
  rewrite !pad2_two_digits; try reflexivity.
  - pose proof (Z.mod_pos_bound s 60); lia.
  - pose proof (Z.mod_pos_bound (s / 60) 60); lia.
  - split; [apply Z.div_pos; lia | ].
    apply Z.div_lt_upper_bound; lia.
Qed.

(** ** [format_time] *)

Lemma local_in_years (zone : Zone) (u : Z) :
  in_years zone u -> local zone u = Returned (u + utcoffset zone u).
Proof.
  unfold in_years, local. intros [Hlo Hhi].
  apply Z.leb_le in Hlo, Hhi. now rewrite Hlo, Hhi.
Qed.

Lemma local_outside (zone : Zone) (u : Z) :
  ~ in_years zone u -> local zone u = Raised TimestampError.
Proof.
  unfold in_years, local. intros Hout.
  destruct (Z.leb_spec MIN_SECONDS (u + utcoffset zone u));
    destruct (Z.leb_spec (u + utcoffset zone u) MAX_SECONDS);
    simpl; try reflexivity.
  exfalso. apply Hout. lia.
Qed.

Lemma fromtimestamp_int_representable (zone : Zone) (t : Z) :
  representable zone t ->
  let s := (t + utcoffset zone t) mod 86400 in
  fromtimestamp_int zone t
  = Returned {| hour := s / 3600; minute := (s mod 3600) / 60; second := s mod 60 |}.
Proof.
  intros (Ht & Hprobe & Hfold) s. unfold fromtimestamp_int.
  rewrite (local_in_years _ _ Ht). cbn [bind].
  change max_fold_seconds with 86400.
  rewrite (local_in_years _ _ Hprobe). cbn [bind].
  replace (t + utcoffset zone t - (t - 86400 + utcoffset zone (t - 86400)) - 86400)
    with (utcoffset zone t - utcoffset zone (t - 86400)) by lia.
  destruct (Z.ltb_spec (utcoffset zone t - utcoffset zone (t - 86400)) 0) as [Hdrop|Hkeep].
  - rewrite (local_in_years _ _ (Hfold ltac:(lia))). reflexivity.
  - reflexivity.
Qed.

Lemma format_time_int {F : PyFloat} (zone : Zone) (service_day seconds : Z) :
  representable zone (service_day + seconds) ->
  HelsinkiTransport.format_time zone (PInt service_day) (PInt seconds)
  = Returned (wall_clock (service_day + seconds
                          + utcoffset zone (service_day + seconds))).
Proof.
  intros Hrep. unfold HelsinkiTransport.format_time.
  cbn [add as_int bind fromtimestamp].
  rewrite (fromtimestamp_int_representable _ _ Hrep). cbn [bind].
  now rewrite strftime_wall_clock.
Qed.

Lemma format_time_unrepresentable {F : PyFloat} (zone : Zone) (service_day seconds : Z) :
  ~ in_years zone (service_day + seconds) ->
  HelsinkiTransport.format_time zone (PInt service_day) (PInt seconds)
  = Raised TimestampError.
Proof.
  intros Hout. unfold HelsinkiTransport.format_time.
  cbn [add as_int bind fromtimestamp]. unfold fromtimestamp_int.
  now rewrite (local_outside _ _ Hout).
Qed.

(** In a zone whose offset stays within a day of UTC, every instant from
    0001-01-04 to 9999-12-30 (UTC) is representable. *)
Lemma representable_margin (zone : Zone) (t : Z) :
  (forall u, -86400 <= utcoffset zone u <= 86400) ->
  MIN_SECONDS + 3 * 86400 <= t <= MAX_SECONDS - 86400 ->
  representable zone t.
Proof.
  intros Hzone Ht. unfold representable, in_years.
  pose proof (Hzone t). pose proof (Hzone (t - 86400)).
  pose proof (Hzone (t + (utcoffset zone t - utcoffset zone (t - 86400)))).
  repeat split; lia.
Qed.

(** C3 (as amended).  For every pair (serviceDay, offsetSeconds) whose
    instant serviceDay + offsetSeconds is one [datetime] can represent in
    the local zone, [format_time] returns the zero-padded 24-hour local
    wall-clock reading HH:MM:SS of that instant. *)
Theorem format_time_renders_local_clock {F : PyFloat} (zone : Zone)
    (service_day seconds : Z) :
  representable zone (service_day + seconds) ->
  HelsinkiTransport.format_time zone (PInt service_day) (PInt seconds)
  = Returned (wall_clock (service_day + seconds
                          + utcoffset zone (service_day + seconds))).
Proof. exact (format_time_int zone service_day seconds). Qed.

(** With the process in UTC, service day 0 and offset 3661 read 01:01:01. *)
Lemma format_time_renders_local_clock_witness :
  representable UTC (0 + 3661) /\
  HelsinkiTransport.format_time (F := NoFloat) UTC (PInt 0) (PInt 3661)
  = Returned "01:01:01".
Proof.
  assert (H : representable UTC (0 + 3661)).
  { apply representable_margin; [intros u; simpl; lia | vm_compute; split; discriminate]. }
  split; [exact H | ].
  exact (format_time_renders_local_clock (F := NoFloat) UTC 0 3661 H).
Defined.

(** C3 (as stated) fails: the instant 10^12 falls in the year 33658, and
    [format_time] raises instead of rendering 01:46:40. *)
Lemma format_time_counterexample :
  HelsinkiTransport.format_time (F := NoFloat) UTC (PInt 0) (PInt 1000000000000)
  = Raised TimestampError /\
  HelsinkiTransport.format_time (F := NoFloat) UTC (PInt 0) (PInt 1000000000000)
  <> Returned (wall_clock (0 + 1000000000000)).
Proof.
  split; [reflexivity | discriminate].
Qed.

(** ** [format_departure] and [format_arrival] *)

(** The three-way test of the formatters on an integer delay, case by case
    on the sign of the delay. *)
Ltac delay_cases d :=
  unfold gt0, lt0, abs, delay_annotation; cbn [as_int bind str repr];
  destruct (Z.compare_spec d 0);
  [ subst d; reflexivity
  | destruct (Z.ltb_spec 0 d); [lia | ];
    destruct (Z.ltb_spec d 0); [ | lia];
    cbn [bind]; now rewrite append_assoc
  | destruct (Z.ltb_spec 0 d); [ | lia];
    cbn [bind]; now rewrite append_assoc ].

Lemma format_departure_line {F : PyFloat} (zone : Zone)
    (st : list (string * pyval)) (service_day route_short_name : pyval)
    (d : Z) (scheduled_time : string) :
  get_or st "departureDelay" (PInt 0) = PInt d ->
  HelsinkiTransport.format_time zone service_day (get_or st "scheduledDeparture" (PInt 0))
  = Returned scheduled_time ->
  get (get_or st "trip" (PDict [])) "routeShortName" (PStr "N/A")
  = Returned route_short_name ->
  HelsinkiTransport.format_departure zone (PDict st) service_day
  = Returned (scheduled_time ++ delay_annotation d ++ " - Route "
              ++ str route_short_name ++ " to "
              ++ str (get_or st "headsign" (PStr "Unknown destination")))%string.
Proof.
  intros Hdelay Htime Hroute. unfold HelsinkiTransport.format_departure.
  cbn [get bind]. rewrite Hroute. cbn [bind]. rewrite Htime. cbn [bind].
  rewrite Hdelay. delay_cases d.
Qed.

Lemma format_arrival_line {F : PyFloat} (zone : Zone)
    (st : list (string * pyval)) (service_day route_short_name : pyval)
    (d : Z) (scheduled_time : string) :
  get_or st "arrivalDelay" (PInt 0) = PInt d ->
  HelsinkiTransport.format_time zone service_day (get_or st "scheduledArrival" (PInt 0))
  = Returned scheduled_time ->
  get (get_or st "trip" (PDict [])) "routeShortName" (PStr "N/A")
  = Returned route_short_name ->
  HelsinkiTransport.format_arrival zone (PDict st) service_day
  = Returned (scheduled_time ++ delay_annotation d ++ " - Route "
              ++ str route_short_name ++ " from "
              ++ str (get_or st "headsign" (PStr "Unknown origin")))%string.
Proof.
  intros Hdelay Htime Hroute. unfold HelsinkiTransport.format_arrival.
  cbn [get bind]. rewrite Hroute. cbn [bind]. rewrite Htime. cbn [bind].
  rewrite Hdelay. delay_cases d.
Qed.

Lemma delay_annotation_late (d : Z) :
  0 < d -> delay_annotation d = (" (Delayed by " ++ str_of_int d ++ "s)")%string.
Proof.
  intros Hd. unfold delay_annotation. now destruct (Z.compare_spec d 0); try lia.
Qed.

Lemma delay_annotation_early (d : Z) :
  d < 0 -> delay_annotation d = (" (Early by " ++ str_of_int (Z.abs d) ++ "s)")%string.
Proof.
  intros Hd. unfold delay_annotation. now destruct (Z.compare_spec d 0); try lia.
Qed.

Lemma delay_annotation_on_time : delay_annotation 0 = EmptyString.
Proof. reflexivity. Qed.

(** C2.  For every integer delay [d], the annotation that follows the time
    in a formatted stop-time line is " (Delayed by {d}s)" when d > 0,
    " (Early by {|d|}s)" when d < 0 and empty when d = 0
    ([delay_annotation]), in [format_departure] and in [format_arrival]. *)
Theorem delay_annotation_in_both_formatters {F : PyFloat} (zone : Zone)
    (st : list (string * pyval)) (service_day route_short_name : pyval)
    (d_dep d_arr : Z) (time_dep time_arr : string) :
  get_or st "departureDelay" (PInt 0) = PInt d_dep ->
  get_or st "arrivalDelay" (PInt 0) = PInt d_arr ->
  HelsinkiTransport.format_time zone service_day (get_or st "scheduledDeparture" (PInt 0))
  = Returned time_dep ->
  HelsinkiTransport.format_time zone service_day (get_or st "scheduledArrival" (PInt 0))
  = Returned time_arr ->
  get (get_or st "trip" (PDict [])) "routeShortName" (PStr "N/A")
  = Returned route_short_name ->
  HelsinkiTransport.format_departure zone (PDict st) service_day
  = Returned (time_dep ++ delay_annotation d_dep ++ " - Route "
              ++ str route_short_name ++ " to "
              ++ str (get_or st "headsign" (PStr "Unknown destination")))%string
  /\
  HelsinkiTransport.format_arrival zone (PDict st) service_day
  = Returned (time_arr ++ delay_annotation d_arr ++ " - Route "
              ++ str route_short_name ++ " from "
              ++ str (get_or st "headsign" (PStr "Unknown origin")))%string.
Proof.
  intros Hdep Harr Htdep Htarr Hroute. split.
  - now apply format_departure_line.
  - now apply format_arrival_line.
Qed.

Lemma delay_annotation_in_both_formatters_witness :
  let st := late_and_early (F := NoFloat) in
  (get_or st "departureDelay" (PInt 0) = PInt 30 /\
   get_or st "arrivalDelay" (PInt 0) = PInt (-15) /\
   HelsinkiTransport.format_time UTC (PInt 0) (get_or st "scheduledDeparture" (PInt 0))
   = Returned "00:10:00" /\
   HelsinkiTransport.format_time UTC (PInt 0) (get_or st "scheduledArrival" (PInt 0))
   = Returned "00:09:00" /\
   get (get_or st "trip" (PDict [])) "routeShortName" (PStr "N/A") = Returned (PStr "5")) /\
  HelsinkiTransport.format_departure UTC (PDict st) (PInt 0)
  = Returned "00:10:00 (Delayed by 30s) - Route 5 to X" /\
  HelsinkiTransport.format_arrival UTC (PDict st) (PInt 0)
  = Returned "00:09:00 (Early by 15s) - Route 5 from X".
Proof.
  intros st.
  split.
  - repeat split; reflexivity.
  - exact (delay_annotation_in_both_formatters (F := NoFloat) UTC st (PInt 0) (PStr "5")
             30 (-15) "00:10:00" "00:09:00"
             eq_refl eq_refl eq_refl eq_refl eq_refl).
Defined.

(** C4 (as amended).  For every stop-time record whose scheduled departure
    and departure delay are integers, whose trip is an object (absent fields
    reading 0, 0 and an empty object) and whose instant
    serviceDay + scheduledDeparture is one [datetime] can represent, the
    formatted departure line is the local HH:MM:SS of that instant, the
    delay annotation, " - Route ", the route short name (default "N/A"),
    " to " and the headsign (default "Unknown destination"). *)
Theorem format_departure_line_of_record {F : PyFloat} (zone : Zone)
    (st trip : list (string * pyval)) (service_day scheduled delay : Z) :
  get_or st "scheduledDeparture" (PInt 0) = PInt scheduled ->
  get_or st "departureDelay" (PInt 0) = PInt delay ->
  get_or st "trip" (PDict []) = PDict trip ->
  representable zone (service_day + scheduled) ->
  HelsinkiTransport.format_departure zone (PDict st) (PInt service_day)
  = Returned (wall_clock (service_day + scheduled
                          + utcoffset zone (service_day + scheduled))
              ++ delay_annotation delay ++ " - Route "
              ++ str (get_or trip "routeShortName" (PStr "N/A")) ++ " to "
              ++ str (get_or st "headsign" (PStr "Unknown destination")))%string.
Proof.
  intros Hsched Hdelay Htrip Hrep.
  apply format_departure_line.
  - exact Hdelay.
  - rewrite Hsched. now apply format_time_int.
  - now rewrite Htrip.
Qed.

Lemma format_departure_line_of_record_witness :
  let st := scenario (F := NoFloat) in
  (get_or st "scheduledDeparture" (PInt 0) = PInt 600 /\
   get_or st "departureDelay" (PInt 0) = PInt 30 /\
   get_or st "trip" (PDict []) = PDict [("routeShortName", PStr "5")] /\
   representable UTC (0 + 600)) /\
  HelsinkiTransport.format_departure UTC (PDict st) (PInt 0)
  = Returned "00:10:00 (Delayed by 30s) - Route 5 to X".
Proof.
  intros st.
  assert (H : representable UTC (0 + 600)).
  { apply representable_margin; [intros u; simpl; lia | vm_compute; split; discriminate]. }
  split.
  - split; [reflexivity | split; [reflexivity | split; [reflexivity | exact H]]].
  - exact (format_departure_line_of_record (F := NoFloat) UTC st
             [("routeShortName", PStr "5")] 0 600 30 eq_refl eq_refl eq_refl H).
Defined.

(** C4 (as stated) fails on three records: one whose scheduled departure is
    10^12 seconds, an instant in the year 33658; one whose departure delay
    is null; one whose trip is null.  No line is produced for any of them. *)
Lemma format_departure_counterexample :
  HelsinkiTransport.format_departure (F := NoFloat) UTC
    (PDict [("scheduledDeparture", PInt 1000000000000); ("departureDelay", PInt 30);
            ("headsign", PStr "X"); ("trip", PDict [("routeShortName", PStr "5")])])
    (PInt 0)
  = Raised TimestampError
  /\
  HelsinkiTransport.format_departure (F := NoFloat) UTC
    (PDict [("scheduledDeparture", PInt 600); ("departureDelay", PNone);
            ("headsign", PStr "X"); ("trip", PDict [("routeShortName", PStr "5")])])
    (PInt 0)
  = Raised TypeError
  /\
  HelsinkiTransport.format_departure (F := NoFloat) UTC
    (PDict [("scheduledDeparture", PInt 600); ("departureDelay", PInt 30);
            ("headsign", PStr "X"); ("trip", PNone)])
    (PInt 0)
  = Raised AttributeError.
Proof. repeat split. Qed.

(** ** [draft_finnish] *)

(** C5.  When [VLLM_ENDPOINT] is unset or empty, [draft_finnish] returns the
    configuration-error text, which names the variable, and sends no
    request: the transport helper is not called. *)
Theorem draft_finnish_without_endpoint {F : PyFloat}
    (import_environ environ : string -> option string) (prompt : string)
    (temperature : pyval) (max_tokens : Z) (system_prompt : option string)
    (net : Network) :
  environ "VLLM_ENDPOINT" = None \/ environ "VLLM_ENDPOINT" = Some EmptyString ->
  DraftFinnish.draft_finnish import_environ environ prompt temperature max_tokens
    system_prompt net
  = ([], Returned "VLLM endpoint is not configured. Set the environment variable VLLM_ENDPOINT to the vLLM /v1/chat/completions URL.").
Proof.
  intros Hunset. unfold DraftFinnish.draft_finnish, DraftFinnish.VLLM_ENDPOINT_ENV.
  destruct Hunset as [-> | ->]; reflexivity.
Qed.

Lemma draft_finnish_without_endpoint_witness :
  (empty_environ "VLLM_ENDPOINT" = None \/
   empty_environ "VLLM_ENDPOINT" = Some EmptyString) /\
  DraftFinnish.draft_finnish (F := NoFloat) empty_environ empty_environ "Hei maailma!"
    (PInt 1) 1024 None unreachable
  = ([], Returned "VLLM endpoint is not configured. Set the environment variable VLLM_ENDPOINT to the vLLM /v1/chat/completions URL.").
Proof.
  split.
  - left. reflexivity.
  - exact (draft_finnish_without_endpoint (F := NoFloat) empty_environ empty_environ
             "Hei maailma!" (PInt 1) 1024 None unreachable (or_introl eq_refl)).
Defined.

(** What [draft_finnish] does with the document of a 2xx response. *)
Lemma draft_finnish_on_document {F : PyFloat}
    (import_environ environ : string -> option string) (prompt : string)
    (temperature : pyval) (max_tokens : Z) (system_prompt : option string)
    (net : Network) (c : ascii) (rest : string) (r : Response) (data : pyval) :
  environ "VLLM_ENDPOINT" = Some (String c rest) ->
  (forall req, url req = String c rest -> net req = Reply r) ->
  200 <= status_code r <= 299 ->
  body r = Some data ->
  snd (DraftFinnish.draft_finnish import_environ environ prompt temperature max_tokens
         system_prompt net)
  = match completion_path data with
    | Returned completion => DraftFinnish.strip_method completion
    | Raised KeyError | Raised IndexError | Raised TypeError =>
        Returned ("Unexpected response format from vLLM: " ++ str data)%string
    | Raised e => Raised e
    end.
Proof.
  intros Henv Hnet [Hlo Hhi] Hbody.
  unfold DraftFinnish.draft_finnish, DraftFinnish.VLLM_ENDPOINT_ENV.
  rewrite Henv.
  unfold bindIO, try, DraftFinnish._post_to_vllm, bindIO, post, lift, ret.
  rewrite Hnet by reflexivity.
  unfold raise_for_status, response_json.
  apply Z.leb_le in Hlo, Hhi. rewrite Hlo, Hhi, Hbody. cbn [andb].
  unfold completion_path, bind.
  destruct (getitem_key data "choices") as [choices | []]; try reflexivity.
  destruct (getitem_index choices 0) as [choice | []]; try reflexivity.
  destruct (getitem_key choice "message") as [message | []]; try reflexivity.
  destruct (getitem_key message "content") as [completion | []]; reflexivity.
Qed.

Lemma getitem_key_errors {F : PyFloat} (v : pyval) (k : string) (e : exn) :
  getitem_key v k = Raised e -> e = KeyError \/ e = TypeError.
Proof.
  destruct v; cbn; try (intros [= <-]; now auto).
  destruct (lookup k d); intros [= <-]; auto.
Qed.

Lemma getitem_index_errors {F : PyFloat} (v : pyval) (i : Z) (e : exn) :
  getitem_index v i = Raised e -> e = KeyError \/ e = IndexError \/ e = TypeError.
Proof.
  destruct v; cbn; try (intros [= <-]; now auto).
  - destruct (_ <? 0); [intros [= <-]; now auto | ].
    destruct (String.get _ s); intros [= <-]; auto.
  - destruct (_ <? 0); [intros [= <-]; now auto | ].
    destruct (nth_error l _); intros [= <-]; auto.
Qed.

(** The path raises nothing but what the [except] clause names. *)
Lemma completion_path_errors {F : PyFloat} (data : pyval) (e : exn) :
  completion_path data = Raised e -> e = KeyError \/ e = IndexError \/ e = TypeError.
Proof.
  unfold completion_path, bind.
  destruct (getitem_key data "choices") as [choices|e1] eqn:H1.
  2: { intros [= <-]. destruct (getitem_key_errors _ _ _ H1) as [-> | ->]; auto. }
  destruct (getitem_index choices 0) as [choice|e2] eqn:H2.
  2: { intros [= <-]. exact (getitem_index_errors _ _ _ H2). }
  destruct (getitem_key choice "message") as [message|e3] eqn:H3.
  2: { intros [= <-]. destruct (getitem_key_errors _ _ _ H3) as [-> | ->]; auto. }
  intros H4. destruct (getitem_key_errors _ _ _ H4) as [-> | ->]; auto.
Qed.

(** Text content comes back stripped. *)
Lemma draft_finnish_strips_text {F : PyFloat}
    (import_environ environ : string -> option string) (prompt : string)
    (temperature : pyval) (max_tokens : Z) (system_prompt : option string)
    (net : Network) (c : ascii) (rest : string) (r : Response) (data : pyval)
    (content : string) :
  environ "VLLM_ENDPOINT" = Some (String c rest) ->
  (forall req, url req = String c rest -> net req = Reply r) ->
  200 <= status_code r <= 299 ->
  body r = Some data ->
  completion_path data = Returned (PStr content) ->
  snd (DraftFinnish.draft_finnish import_environ environ prompt temperature max_tokens
         system_prompt net)
  = Returned (strip content).
Proof.
  intros Henv Hnet Hok Hbody Hpath.
  rewrite (draft_finnish_on_document _ _ _ _ _ _ _ _ _ _ _ Henv Hnet Hok Hbody).
  now rewrite Hpath.
Qed.

(** A document without the path comes back inside the error text. *)
Lemma draft_finnish_embeds_document {F : PyFloat}
    (import_environ environ : string -> option string) (prompt : string)
    (temperature : pyval) (max_tokens : Z) (system_prompt : option string)
    (net : Network) (c : ascii) (rest : string) (r : Response) (data : pyval)
    (e : exn) :
  environ "VLLM_ENDPOINT" = Some (String c rest) ->
  (forall req, url req = String c rest -> net req = Reply r) ->
  200 <= status_code r <= 299 ->
  body r = Some data ->
  completion_path data = Raised e ->
  snd (DraftFinnish.draft_finnish import_environ environ prompt temperature max_tokens
         system_prompt net)
  = Returned ("Unexpected response format from vLLM: " ++ str data)%string.
Proof.
  intros Henv Hnet Hok Hbody Hpath.
  rewrite (draft_finnish_on_document _ _ _ _ _ _ _ _ _ _ _ Henv Hnet Hok Hbody).
  rewrite Hpath.
  destruct (completion_path_errors _ _ Hpath) as [-> | [-> | ->]]; reflexivity.
Qed.

(** An error status and a failure to connect both come back as text. *)
Lemma draft_finnish_http_error {F : PyFloat}
    (import_environ environ : string -> option string) (prompt : string)
    (temperature : pyval) (max_tokens : Z) (system_prompt : option string)
    (net : Network) (c : ascii) (rest : string) (r : Response) :
  environ "VLLM_ENDPOINT" = Some (String c rest) ->
  (forall req, url req = String c rest -> net req = Reply r) ->
  status_code r < 200 \/ 299 < status_code r ->
  snd (DraftFinnish.draft_finnish import_environ environ prompt temperature max_tokens
         system_prompt net)
  = Returned ("vLLM returned an error: " ++ str_of_int (status_code r) ++ " " ++ text r)%string.
Proof.
  intros Henv Hnet Hstatus.
  unfold DraftFinnish.draft_finnish, DraftFinnish.VLLM_ENDPOINT_ENV.
  rewrite Henv.
  unfold bindIO, try, DraftFinnish._post_to_vllm, bindIO, post, lift, ret.
  rewrite Hnet by reflexivity.
  unfold raise_for_status.
  destruct (Z.leb_spec 200 (status_code r)); destruct (Z.leb_spec (status_code r) 299);
    try lia; reflexivity.
Qed.

Lemma draft_finnish_no_response {F : PyFloat}
    (import_environ environ : string -> option string) (prompt : string)
    (temperature : pyval) (max_tokens : Z) (system_prompt : option string)
    (net : Network) (c : ascii) (rest message : string) :
  environ "VLLM_ENDPOINT" = Some (String c rest) ->
  (forall req, url req = String c rest -> net req = NoResponse message) ->
  snd (DraftFinnish.draft_finnish import_environ environ prompt temperature max_tokens
         system_prompt net)
  = Returned ("Unable to reach vLLM endpoint at " ++ String c rest ++ ": " ++ message)%string.
Proof.
  intros Henv Hnet.
  unfold DraftFinnish.draft_finnish, DraftFinnish.VLLM_ENDPOINT_ENV.
  rewrite Henv.
  unfold bindIO, try, DraftFinnish._post_to_vllm, bindIO, post, lift, ret.
  rewrite Hnet by reflexivity. reflexivity.
Qed.

(** The two examples of the specification. *)
Example draft_finnish_hello :
  snd (DraftFinnish.draft_finnish (F := NoFloat) empty_environ
         (only_endpoint "http://vllm/v1/chat/completions") "Hei" (PInt 1) 1024 None
         (answers (completion (PStr " Hello "))))
  = Returned "Hello".
Proof. reflexivity. Qed.

Example draft_finnish_missing_choices :
  snd (DraftFinnish.draft_finnish (F := NoFloat) empty_environ
         (only_endpoint "http://vllm/v1/chat/completions") "Hei" (PInt 1) 1024 None
         (answers (PDict [("error", PStr "overloaded")])))
  = Returned "Unexpected response format from vLLM: {'error': 'overloaded'}".
Proof. reflexivity. Qed.

(** C1.  The claim is that [draft_finnish] never raises.  The code lets two
    exceptions through: a 2xx response whose text is not JSON raises
    [JSONDecodeError] out of [_post_to_vllm], which the two [except] clauses
    around the call do not name; and a completion whose content is not a
    [str] (here the number 42) raises [AttributeError] at [.strip()], after
    the second [try]. *)
Theorem draft_finnish_lets_exceptions_through :
  snd (DraftFinnish.draft_finnish (F := NoFloat) empty_environ
         (only_endpoint "http://vllm/v1/chat/completions") "Hei" (PInt 1) 1024 None
         answers_html)
  = Raised JSONDecodeError
  /\
  snd (DraftFinnish.draft_finnish (F := NoFloat) empty_environ
         (only_endpoint "http://vllm/v1/chat/completions") "Hei" (PInt 1) 1024 None
         (answers (completion (PInt 42))))
  = Raised AttributeError.
Proof. split; reflexivity. Qed.

(** C6.  The claim is that a document whose path [choices[0].message.content]
    exists yields the stripped content and any other document yields a text
    that embeds it, without an error.  On the document
    [{"choices": [{"message": {"content": null}}]}] the path exists, its
    value is [None], and the code raises [AttributeError]. *)
Theorem draft_finnish_null_content_raises :
  completion_path (F := NoFloat) (completion PNone) = Returned PNone /\
  snd (DraftFinnish.draft_finnish (F := NoFloat) empty_environ
         (only_endpoint "http://vllm/v1/chat/completions") "Hei" (PInt 1) 1024 None
         (answers (completion PNone)))
  = Raised AttributeError.
Proof. split; reflexivity. Qed.

(** ** The stop operations *)

Lemma snd_bind_lift {F : PyFloat} {A B : Type} (m : IO A) (k : A -> result B)
    (net : Network) :
  snd ((x <~ m ;; lift (k x)) net) = bind (snd (m net)) k.
Proof.
  unfold bindIO, lift. destruct (m net) as [sent [a|e]]; reflexivity.
Qed.

(** A request never raises: its failures are handed over as [None]. *)
Lemma make_graphql_request_returns {F : PyFloat} (environ : string -> option string)
    (query : string) (net : Network) :
  exists data,
    snd (HelsinkiTransport.make_graphql_request environ query net) = Returned data.
Proof.
  unfold HelsinkiTransport.make_graphql_request, try, bindIO, post, lift, ret.
  destruct (net _) as [message | r]; [now exists PNone | ].
  destruct (raise_for_status r) as [[] | e]; [ | now exists PNone].
  destruct (response_json r) as [v | e]; [now exists v | now exists PNone].
Qed.

(** A 2xx response with a JSON document hands the document over. *)
Lemma make_graphql_request_document {F : PyFloat} (environ : string -> option string)
    (query : string) (net : Network) (r : Response) (data : pyval) :
  (forall req, url req = HelsinkiTransport.DIGITRANSIT_API_URL -> net req = Reply r) ->
  200 <= status_code r <= 299 ->
  body r = Some data ->
  snd (HelsinkiTransport.make_graphql_request environ query net) = Returned data.
Proof.
  intros Hnet [Hlo Hhi] Hbody.
  unfold HelsinkiTransport.make_graphql_request, try, bindIO, post, lift, ret.
  rewrite Hnet by reflexivity.
  unfold raise_for_status, response_json.
  apply Z.leb_le in Hlo, Hhi. now rewrite Hlo, Hhi, Hbody.
Qed.

(** No response, an error status and a text that is not JSON all hand over
    [None], and every operation then returns its "Unable to ..." text. *)
Lemma make_graphql_request_failure {F : PyFloat} (environ : string -> option string)
    (query : string) (net : Network) :
  (forall req, url req = HelsinkiTransport.DIGITRANSIT_API_URL ->
     match net req with
     | NoResponse _ => True
     | Reply r => status_code r < 200 \/ 299 < status_code r \/ body r = None
     end) ->
  snd (HelsinkiTransport.make_graphql_request environ query net) = Returned PNone.
Proof.
  intros Hnet.
  unfold HelsinkiTransport.make_graphql_request, try, bindIO, post, lift, ret.
  match goal with |- context [net ?req] => specialize (Hnet req eq_refl); destruct (net req) as [message | r] end;
    [reflexivity | ].
  unfold raise_for_status, response_json.
  destruct (Z.leb_spec 200 (status_code r)); [ | reflexivity].
  destruct (Z.leb_spec (status_code r) 299); [ | reflexivity].
  destruct Hnet as [Hlo | [Hhi | Hbody]]; try lia. now rewrite Hbody.
Qed.

Lemma unable_without_data {F : PyFloat} (environ : string -> option string)
    (zone : Zone) (stop_id name : string) (limit start_time time_range : Z)
    (net : Network) :
  (forall query, snd (HelsinkiTransport.make_graphql_request environ query net)
                 = Returned PNone) ->
  snd (HelsinkiTransport.get_departures environ zone stop_id limit net)
  = Returned ("Unable to fetch departures for stop ID: " ++ stop_id)%string /\
  snd (HelsinkiTransport.get_timetable environ zone stop_id start_time time_range net)
  = Returned ("Unable to fetch timetable for stop ID: " ++ stop_id)%string /\
  snd (HelsinkiTransport.get_stop_info environ stop_id net)
  = Returned ("Unable to fetch information for stop ID: " ++ stop_id)%string /\
  snd (HelsinkiTransport.find_stop environ name limit net)
  = Returned ("Unable to search for stops with name: " ++ name)%string.
Proof.
  intros Hnone.
  unfold HelsinkiTransport.get_departures, HelsinkiTransport.get_timetable,
    HelsinkiTransport.get_stop_info, HelsinkiTransport.find_stop.
  rewrite !snd_bind_lift, !Hnone. repeat split.
Qed.

Lemma lookup_nonempty {F : PyFloat} (k : string) (d : list (string * pyval)) (v : pyval) :
  lookup k d = Some v -> truthy (PDict d) = true.
Proof. destruct d; [discriminate | reflexivity]. Qed.

Lemma no_stop_false {F : PyFloat} (top d stop : list (string * pyval)) :
  lookup "data" top = Some (PDict d) ->
  lookup "stop" d = Some (PDict stop) ->
  stop <> [] ->
  HelsinkiTransport.no_stop (PDict top) = Returned false.
Proof.
  intros Hdata Hstop Hne. unfold HelsinkiTransport.no_stop, orelse.
  rewrite (lookup_nonempty _ _ _ Hdata).
  cbn [negb bind contains getitem_key get]. rewrite Hdata. cbn [negb bind get].
  unfold get_or. rewrite Hstop. cbn [bind]. now destruct stop.
Qed.

(** C8.  When the response names a stop and its list of stop-times is
    empty, [get_departures] returns "No departures found for stop: ..." and
    [get_timetable] returns "No timetable entries found for stop: ...", each
    with the name and the identifier of the stop; nothing is raised. *)
Theorem empty_stoptimes_message {F : PyFloat} (environ : string -> option string)
    (zone : Zone) (stop_id : string) (limit start_time time_range : Z) (net : Network)
    (top d stop : list (string * pyval)) :
  snd (HelsinkiTransport.make_graphql_request environ
         (HelsinkiTransport.departures_query stop_id limit) net)
  = Returned (PDict top) ->
  snd (HelsinkiTransport.make_graphql_request environ
         (HelsinkiTransport.timetable_query stop_id start_time time_range) net)
  = Returned (PDict top) ->
  lookup "data" top = Some (PDict d) ->
  lookup "stop" d = Some (PDict stop) ->
  stop <> [] ->
  get_or stop "stoptimesWithoutPatterns" (PList []) = PList [] ->
  snd (HelsinkiTransport.get_departures environ zone stop_id limit net)
  = Returned ("No departures found for stop: "
              ++ str (get_or stop "name" (PStr "Unknown stop"))
              ++ " (" ++ stop_id ++ ")")%string
  /\
  snd (HelsinkiTransport.get_timetable environ zone stop_id start_time time_range net)
  = Returned ("No timetable entries found for stop: "
              ++ str (get_or stop "name" (PStr "Unknown stop"))
              ++ " (" ++ stop_id ++ ")")%string.
Proof.
  intros Hdep Htt Hdata Hstop Hne Hempty.
  unfold HelsinkiTransport.get_departures, HelsinkiTransport.get_timetable.
  rewrite !snd_bind_lift, Hdep, Htt. cbn [bind].
  rewrite (no_stop_false _ _ _ Hdata Hstop Hne).
  cbn [bind getitem_key]. rewrite Hdata. cbn [bind getitem_key]. rewrite Hstop.
  cbn [bind get]. rewrite Hempty. cbn [truthy negb]. split; reflexivity.
Qed.

Lemma empty_stoptimes_message_witness :
  let top := [("data", PDict [("stop", PDict (quiet_stop (F := NoFloat)))])] in
  let net := answers (stop_document quiet_stop) in
  (snd (HelsinkiTransport.make_graphql_request empty_environ
          (HelsinkiTransport.departures_query "HSL:1040129" 10) net)
   = Returned (PDict top) /\
   snd (HelsinkiTransport.make_graphql_request empty_environ
          (HelsinkiTransport.timetable_query "HSL:1040129" 0 3600) net)
   = Returned (PDict top) /\
   lookup "data" top = Some (PDict [("stop", PDict quiet_stop)]) /\
   lookup "stop" [("stop", PDict (quiet_stop (F := NoFloat)))] = Some (PDict quiet_stop) /\
   quiet_stop (F := NoFloat) <> [] /\
   get_or (quiet_stop (F := NoFloat)) "stoptimesWithoutPatterns" (PList []) = PList []) /\
  snd (HelsinkiTransport.get_departures empty_environ UTC "HSL:1040129" 10 net)
  = Returned "No departures found for stop: Arkadian puisto (HSL:1040129)" /\
  snd (HelsinkiTransport.get_timetable empty_environ UTC "HSL:1040129" 0 3600 net)
  = Returned "No timetable entries found for stop: Arkadian puisto (HSL:1040129)".
Proof.
  intros top net.
  assert (Hne : quiet_stop (F := NoFloat) <> []) by discriminate.
  split.
  - repeat split; solve [reflexivity | exact Hne].
  - exact (empty_stoptimes_message (F := NoFloat) empty_environ UTC "HSL:1040129"
             10 0 3600 net top [("stop", PDict quiet_stop)] quiet_stop
             eq_refl eq_refl eq_refl eq_refl Hne eq_refl).
Defined.

(** ** Which fields a formatted line depends on *)

Lemma format_departure_reads {F : PyFloat} (zone : Zone) (a b : list (string * pyval))
    (service_day : pyval) :
  (forall k, In k ["scheduledDeparture"; "departureDelay"; "headsign"; "trip"] ->
             lookup k a = lookup k b) ->
  HelsinkiTransport.format_departure zone (PDict a) service_day
  = HelsinkiTransport.format_departure zone (PDict b) service_day.
Proof.
  intros Hsame. unfold HelsinkiTransport.format_departure, get, get_or.
  rewrite (Hsame "scheduledDeparture"), (Hsame "departureDelay"),
    (Hsame "headsign"), (Hsame "trip") by (simpl; auto).
  reflexivity.
Qed.

Lemma format_arrival_reads {F : PyFloat} (zone : Zone) (a b : list (string * pyval))
    (service_day : pyval) :
  (forall k, In k ["scheduledArrival"; "arrivalDelay"; "headsign"; "trip"] ->
             lookup k a = lookup k b) ->
  HelsinkiTransport.format_arrival zone (PDict a) service_day
  = HelsinkiTransport.format_arrival zone (PDict b) service_day.
Proof.
  intros Hsame. unfold HelsinkiTransport.format_arrival, get, get_or.
  rewrite (Hsame "scheduledArrival"), (Hsame "arrivalDelay"),
    (Hsame "headsign"), (Hsame "trip") by (simpl; auto).
  reflexivity.
Qed.

(** Agreement outside one field gives agreement on a list of other fields. *)
Lemma agree_except_on {F : PyFloat} (k : string) (a b : list (string * pyval))
    (fields : list string) :
  agree_except k a b ->
  forallb (fun k' => negb (String.eqb k' k)) fields = true ->
  forall k', In k' fields -> lookup k' a = lookup k' b.
Proof.
  intros Hagree Hfields k' Hin. apply Hagree.
  rewrite forallb_forall in Hfields. specialize (Hfields k' Hin).
  intros ->. now rewrite String.eqb_refl in Hfields.
Qed.

(** C10.  Two stop-time records that differ only in [realtimeDeparture]
    give the same result in [format_departure], and two that differ only in
    [realtimeArrival] give the same result in [format_arrival]: the realtime
    values are read and never used. *)
Theorem realtime_fields_do_not_matter {F : PyFloat} (zone : Zone)
    (a b a' b' : list (string * pyval)) (service_day : pyval) :
  agree_except "realtimeDeparture" a b ->
  agree_except "realtimeArrival" a' b' ->
  HelsinkiTransport.format_departure zone (PDict a) service_day
  = HelsinkiTransport.format_departure zone (PDict b) service_day
  /\
  HelsinkiTransport.format_arrival zone (PDict a') service_day
  = HelsinkiTransport.format_arrival zone (PDict b') service_day.
Proof.
  intros Hdep Harr. split.
  - apply format_departure_reads. now apply (agree_except_on _ _ _ _ Hdep).
  - apply format_arrival_reads. now apply (agree_except_on _ _ _ _ Harr).
Qed.

Lemma lookup_with_field_other {F : PyFloat} (k k' : string) (v : pyval)
    (d : list (string * pyval)) :
  k' <> k -> lookup k' (with_field k v d) = lookup k' d.
Proof.
  intros Hne. induction d as [|[k0 x] d IH]; simpl.
  - destruct (String.eqb_spec k' k); [contradiction | reflexivity].
  - destruct (String.eqb_spec k k0) as [<- | Hk]; simpl.
    + destruct (String.eqb_spec k' k); [contradiction | reflexivity].
    + now rewrite IH.
Qed.

Lemma agree_except_with_field {F : PyFloat} (k : string) (v : pyval)
    (d : list (string * pyval)) :
  agree_except k d (with_field k v d).
Proof.
  intros k' Hne. symmetry. now apply lookup_with_field_other.
Qed.

Lemma realtime_fields_do_not_matter_witness :
  let a := scenario (F := NoFloat) in
  let b := with_field "realtimeDeparture" (PInt 655) a in
  let a' := late_and_early (F := NoFloat) in
  let b' := with_field "realtimeArrival" (PInt 520) a' in
  (agree_except "realtimeDeparture" a b /\ agree_except "realtimeArrival" a' b') /\
  HelsinkiTransport.format_departure UTC (PDict a) (PInt 0)
  = HelsinkiTransport.format_departure UTC (PDict b) (PInt 0) /\
  HelsinkiTransport.format_arrival UTC (PDict a') (PInt 0)
  = HelsinkiTransport.format_arrival UTC (PDict b') (PInt 0).
Proof.
  intros a b a' b'.
  pose (Ha := agree_except_with_field "realtimeDeparture" (PInt 655) a).
  pose (Ha' := agree_except_with_field "realtimeArrival" (PInt 520) a').
  split.
  - split; [exact Ha | exact Ha'].
  - exact (realtime_fields_do_not_matter (F := NoFloat) UTC a b a' b' (PInt 0) Ha Ha').
Defined.

(** ** The service day of a batch *)

(** C9.  When the list of stop-times of the response is not empty,
    [get_departures] and [get_timetable] format every entry with one service
    day, the [serviceDay] of the first entry (0 when it has none); the
    [serviceDay] of an entry is never read by [format_departure], so the
    values the later entries carry have no effect. *)
Theorem service_day_of_first_entry {F : PyFloat} (environ : string -> option string)
    (zone : Zone) (stop_id : string) (limit start_time time_range : Z) (net : Network)
    (top d stop first : list (string * pyval)) (others : list pyval) :
  snd (HelsinkiTransport.make_graphql_request environ
         (HelsinkiTransport.departures_query stop_id limit) net)
  = Returned (PDict top) ->
  snd (HelsinkiTransport.make_graphql_request environ
         (HelsinkiTransport.timetable_query stop_id start_time time_range) net)
  = Returned (PDict top) ->
  lookup "data" top = Some (PDict d) ->
  lookup "stop" d = Some (PDict stop) ->
  get_or stop "stoptimesWithoutPatterns" (PList []) = PList (PDict first :: others) ->
  let service_day := get_or first "serviceDay" (PInt 0) in
  let stop_name := str (get_or stop "name" (PStr "Unknown stop")) in
  snd (HelsinkiTransport.get_departures environ zone stop_id limit net)
  = (departures <-
       mapM (fun st => HelsinkiTransport.format_departure zone st service_day)
            (PDict first :: others) ;;
     Returned ("Departures from " ++ stop_name ++ " (" ++ stop_id ++ "):" ++ NL
               ++ String.concat NL departures)%string)
  /\
  snd (HelsinkiTransport.get_timetable environ zone stop_id start_time time_range net)
  = (departures <-
       mapM (fun st => HelsinkiTransport.format_departure zone st service_day)
            (PDict first :: others) ;;
     Returned ("Timetable for " ++ stop_name ++ " (" ++ stop_id ++ ") - Next "
               ++ str_of_int (time_range / 60) ++ " minutes:" ++ NL
               ++ String.concat NL departures)%string)
  /\
  (forall (entry : list (string * pyval)) (own day : pyval),
      HelsinkiTransport.format_departure zone (PDict (with_field "serviceDay" own entry)) day
      = HelsinkiTransport.format_departure zone (PDict entry) day).
Proof.
  intros Hdep Htt Hdata Hstop Htimes service_day stop_name.
  assert (Hne : stop <> []).
  { intros ->. discriminate Htimes. }
  unfold HelsinkiTransport.get_departures, HelsinkiTransport.get_timetable.
  rewrite !snd_bind_lift, Hdep, Htt. cbn [bind].
  rewrite (no_stop_false _ _ _ Hdata Hstop Hne).
  cbn [bind getitem_key]. rewrite Hdata. cbn [bind getitem_key]. rewrite Hstop.
  cbn [bind get]. rewrite Htimes.
  cbn [truthy negb getitem_index Z.ltb Z.compare Z.to_nat nth_error bind get iter].
  repeat split.
  intros entry own day. apply format_departure_reads.
  apply (agree_except_on "serviceDay"); [ | reflexivity].
  intros k Hk. now apply lookup_with_field_other.
Qed.

(** Both lines are on the service day 3600 of the first entry; the second
    entry names 7200, which would read 02:15:00. *)
Lemma service_day_of_first_entry_witness :
  let top := [("data", PDict [("stop", PDict (busy_stop (F := NoFloat)))])] in
  let net := answers (stop_document busy_stop) in
  let first : list (string * @pyval NoFloat) :=
    [("scheduledDeparture", PInt 600); ("departureDelay", PInt 30);
     ("serviceDay", PInt 3600); ("headsign", PStr "X");
     ("trip", PDict [("routeShortName", PStr "5")])] in
  let others := [PDict [("scheduledDeparture", PInt 900); ("departureDelay", PInt 0);
                        ("serviceDay", PInt 7200); ("headsign", PStr "Y");
                        ("trip", PDict [("routeShortName", PStr "7")])]] in
  (snd (HelsinkiTransport.make_graphql_request empty_environ
          (HelsinkiTransport.departures_query "HSL:1040129" 10) net)
   = Returned (PDict top) /\
   snd (HelsinkiTransport.make_graphql_request empty_environ
          (HelsinkiTransport.timetable_query "HSL:1040129" 0 3600) net)
   = Returned (PDict top) /\
   lookup "data" top = Some (PDict [("stop", PDict busy_stop)]) /\
   lookup "stop" [("stop", PDict (busy_stop (F := NoFloat)))] = Some (PDict busy_stop) /\
   get_or (busy_stop (F := NoFloat)) "stoptimesWithoutPatterns" (PList [])
   = PList (PDict first :: others)) /\
  snd (HelsinkiTransport.get_departures empty_environ UTC "HSL:1040129" 10 net)
  = Returned ("Departures from Arkadian puisto (HSL:1040129):" ++ NL
              ++ "01:10:00 (Delayed by 30s) - Route 5 to X" ++ NL
              ++ "01:15:00 - Route 7 to Y")%string /\
  snd (HelsinkiTransport.get_timetable empty_environ UTC "HSL:1040129" 0 3600 net)
  = Returned ("Timetable for Arkadian puisto (HSL:1040129) - Next 60 minutes:" ++ NL
              ++ "01:10:00 (Delayed by 30s) - Route 5 to X" ++ NL
              ++ "01:15:00 - Route 7 to Y")%string /\
  (forall (entry : list (string * @pyval NoFloat)) (own day : pyval),
      HelsinkiTransport.format_departure UTC (PDict (with_field "serviceDay" own entry)) day
      = HelsinkiTransport.format_departure UTC (PDict entry) day).
Proof.
  intros top net first others.
  split.
  - repeat split.
  - exact (service_day_of_first_entry (F := NoFloat) empty_environ UTC "HSL:1040129"
             10 0 3600 net top [("stop", PDict busy_stop)] busy_stop first others
             eq_refl eq_refl eq_refl eq_refl eq_refl).
Defined.

(** ** [find_stop] *)

Lemma stop_entry_of_record {F : PyFloat} (stop : list (string * pyval)) :
  exists entry, HelsinkiTransport.stop_entry (PDict stop) = Returned entry.
Proof.
  unfold HelsinkiTransport.stop_entry. cbn [get bind]. eexists. reflexivity.
Qed.

Lemma mapM_returns {A B : Type} (f : A -> result B) (l : list A) :
  (forall a, In a l -> exists b, f a = Returned b) ->
  exists bs, mapM f l = Returned bs /\ List.length bs = List.length l.
Proof.
  induction l as [|a l IH]; intros Hf.
  - exists []. split; reflexivity.
  - destruct (Hf a (or_introl eq_refl)) as [b Hb].
    destruct IH as [bs [Hbs Hlen]]; [intros a' Ha'; apply Hf; now right | ].
    exists (b :: bs). cbn [mapM]. rewrite Hb. cbn [bind]. rewrite Hbs. cbn [bind].
    split; [reflexivity | cbn; now rewrite Hlen].
Qed.

Lemma stop_entries_of_records {F : PyFloat} (stops : list (list (string * pyval))) :
  exists entries,
    mapM HelsinkiTransport.stop_entry (map PDict stops) = Returned entries /\
    List.length entries = List.length stops.
Proof.
  destruct (mapM_returns HelsinkiTransport.stop_entry (map PDict stops)) as [bs [Hbs Hlen]].
  - intros a Ha. apply in_map_iff in Ha as [stop [<- _]]. apply stop_entry_of_record.
  - exists bs. split; [exact Hbs | now rewrite Hlen, length_map].
Qed.

(** C7 (as amended).  When the upstream result has a "data" field and its
    list of stops holds stop objects: if the list is empty, the result is
    "No stops found matching: {name}";
    if the limit is not negative and the list has more than [limit] stops,
    the result holds the entries of the first [limit] stops, exactly [limit]
    of them, under a header that counts [limit]. *)
Theorem find_stop_results {F : PyFloat} (environ : string -> option string)
    (name : string) (limit : Z) (net : Network)
    (top d : list (string * pyval)) (stops : list (list (string * pyval))) :
  snd (HelsinkiTransport.make_graphql_request environ
         (HelsinkiTransport.find_stop_query name) net)
  = Returned (PDict top) ->
  lookup "data" top = Some (PDict d) ->
  get_or d "stops" (PList []) = PList (map PDict stops) ->
  (stops = [] ->
   snd (HelsinkiTransport.find_stop environ name limit net)
   = Returned ("No stops found matching: " ++ name)%string)
  /\
  (0 <= limit < Z.of_nat (List.length stops) ->
   exists entries,
     mapM HelsinkiTransport.stop_entry (map PDict (firstn (Z.to_nat limit) stops))
     = Returned entries /\
     Z.of_nat (List.length entries) = limit /\
     snd (HelsinkiTransport.find_stop environ name limit net)
     = Returned ("Found " ++ str_of_int limit ++ " stop(s) matching '" ++ name ++ "':"
                 ++ NL ++ NL ++ String.concat (NL ++ NL) entries)%string).
Proof.
  intros Hreq Hdata Hstops.
  unfold HelsinkiTransport.find_stop.
  rewrite snd_bind_lift, Hreq. cbn [bind]. unfold orelse.
  rewrite (lookup_nonempty _ _ _ Hdata).
  cbn [negb bind contains getitem_key get]. rewrite Hdata. cbn [negb bind get].
  rewrite Hstops. split.
  - intros ->. reflexivity.
  - intros [Hlo Hhi].
    destruct stops as [|stop stops']; [cbn in Hhi; lia | ].
    cbn [truthy map negb slice_to bind iter len]. unfold list_slice_to.
    destruct (Z.ltb_spec limit 0) as [Hneg|_]; [lia | ].
    rewrite <- map_cons, firstn_map. cbn [bind].
    destruct (stop_entries_of_records (firstn (Z.to_nat limit) (stop :: stops')))
      as [entries [Hentries Hlen]].
    exists entries. rewrite Hentries. cbn [bind].
    rewrite length_map, <- Hlen.
    assert (Hcount : Z.of_nat (List.length entries) = limit).
    { rewrite Hlen, length_firstn. lia. }
    rewrite Hcount.
    split; [reflexivity | split; [reflexivity | now rewrite !append_assoc]].
Qed.

(** Three stops match: with limit 2 the first two are listed; no stop
    matches: the text says so. *)
Lemma find_stop_results_witness :
  let net := answers (stops_document (three_stops (F := NoFloat))) in
  let top := [("data", PDict [("stops", PList (map PDict (three_stops (F := NoFloat))))])] in
  let none := answers (stops_document (F := NoFloat) []) in
  (snd (HelsinkiTransport.make_graphql_request empty_environ
          (HelsinkiTransport.find_stop_query "Arkadia") net)
   = Returned (PDict top) /\
   lookup "data" top = Some (PDict [("stops", PList (map PDict three_stops))]) /\
   get_or [("stops", PList (map PDict (three_stops (F := NoFloat))))] "stops" (PList [])
   = PList (map PDict three_stops) /\
   0 <= 2 < Z.of_nat (List.length (three_stops (F := NoFloat)))) /\
  (exists entries,
     mapM HelsinkiTransport.stop_entry (map PDict (firstn 2 (three_stops (F := NoFloat))))
     = Returned entries /\
     Z.of_nat (List.length entries) = 2 /\
     snd (HelsinkiTransport.find_stop empty_environ "Arkadia" 2 net)
     = Returned ("Found 2 stop(s) matching 'Arkadia':" ++ NL ++ NL
                 ++ String.concat (NL ++ NL) entries)%string) /\
  snd (HelsinkiTransport.find_stop (F := NoFloat) empty_environ "Arkadia" 2 none)
  = Returned "No stops found matching: Arkadia".
Proof.
  intros net top none.
  assert (Hlimit : 0 <= 2 < Z.of_nat (List.length (three_stops (F := NoFloat)))).
  { cbn. lia. }
  split; [ | split].
  - split; [reflexivity | split; [reflexivity | split; [reflexivity | exact Hlimit]]].
  - exact (proj2 (find_stop_results (F := NoFloat) empty_environ "Arkadia" 2 net top
                    [("stops", PList (map PDict three_stops))] three_stops
                    eq_refl eq_refl eq_refl) Hlimit).
  - exact (proj1 (find_stop_results (F := NoFloat) empty_environ "Arkadia" 2 none
                    [("data", PDict [("stops", PList [])])] [("stops", PList [])] []
                    eq_refl eq_refl eq_refl) eq_refl).
Defined.

(** C7 (as stated) fails for a negative limit: three stops match and the
    limit is -1, which is less than three; the slice [stops[:-1]] drops the
    last stop and two entries come back, under a header that counts 2.  It
    also fails when an element of the list is null: nothing comes back. *)
Lemma find_stop_counterexample :
  (exists entries,
     mapM HelsinkiTransport.stop_entry (map PDict (firstn 2 (three_stops (F := NoFloat))))
     = Returned entries /\
     -1 < Z.of_nat (List.length (three_stops (F := NoFloat))) /\
     Z.of_nat (List.length entries) = 2 /\
     Z.of_nat (List.length entries) <> -1 /\
     snd (HelsinkiTransport.find_stop (F := NoFloat) empty_environ "Arkadia" (-1)
            (answers (stops_document three_stops)))
     = Returned ("Found 2 stop(s) matching 'Arkadia':" ++ NL ++ NL
                 ++ String.concat (NL ++ NL) entries)%string)
  /\
  snd (HelsinkiTransport.find_stop (F := NoFloat) empty_environ "Arkadia" 1
         (answers (PDict [("data", PDict [("stops", PList [PNone; PDict []])])])))
  = Raised AttributeError.
Proof.
  split; [ | reflexivity].
  eexists. split; [reflexivity | ].
  split; [reflexivity | split; [reflexivity | split; [discriminate | reflexivity]]].
Qed.

(** * Further properties of the code *)

(** ** The request to the routing API *)





(** ** Answers without a stop *)

(** X3.  When the network delivers no JSON document (no response, a status
    outside 2xx, a text that is not JSON), each operation returns its
    "Unable to ..." text. *)
Theorem nothing_delivered_reads_unable {F : PyFloat} (environ : string -> option string)
    (zone : Zone) (stop_id name : string) (limit start_time time_range : Z)
    (net : Network) :
  delivers_nothing net ->
  snd (HelsinkiTransport.get_departures environ zone stop_id limit net)
  = Returned ("Unable to fetch departures for stop ID: " ++ stop_id)%string /\
  snd (HelsinkiTransport.get_timetable environ zone stop_id start_time time_range net)
  = Returned ("Unable to fetch timetable for stop ID: " ++ stop_id)%string /\
  snd (HelsinkiTransport.get_stop_info environ stop_id net)
  = Returned ("Unable to fetch information for stop ID: " ++ stop_id)%string /\
  snd (HelsinkiTransport.find_stop environ name limit net)
  = Returned ("Unable to search for stops with name: " ++ name)%string.
Proof.
  intros Hnet. apply unable_without_data.
  intros query. apply make_graphql_request_failure. intros req _. apply Hnet.
Qed.

Lemma nothing_delivered_reads_unable_witness :
  delivers_nothing (answers_status (F := NoFloat) 503 "Service Unavailable") /\
  snd (HelsinkiTransport.get_departures empty_environ UTC "HSL:1040129" 10
         (answers_status (F := NoFloat) 503 "Service Unavailable"))
  = Returned "Unable to fetch departures for stop ID: HSL:1040129" /\
  snd (HelsinkiTransport.get_timetable empty_environ UTC "HSL:1040129" 0 3600
         (answers_status (F := NoFloat) 503 "Service Unavailable"))
  = Returned "Unable to fetch timetable for stop ID: HSL:1040129" /\
  snd (HelsinkiTransport.get_stop_info empty_environ "HSL:1040129"
         (answers_status (F := NoFloat) 503 "Service Unavailable"))
  = Returned "Unable to fetch information for stop ID: HSL:1040129" /\
  snd (HelsinkiTransport.find_stop empty_environ "Arkadia" 10
         (answers_status (F := NoFloat) 503 "Service Unavailable"))
  = Returned "Unable to search for stops with name: Arkadia".
Proof.
  assert (H : delivers_nothing (answers_status (F := NoFloat) 503 "Service Unavailable")).
  { intros req. cbn. right. left. lia. }
  split; [exact H | ].
  exact (nothing_delivered_reads_unable (F := NoFloat) empty_environ UTC "HSL:1040129"
           "Arkadia" 10 0 3600 _ H).
Defined.

(** X4.  When the document is an object without a "data" key, such as a
    GraphQL answer that holds only "errors", each operation returns its
    "Unable to ..." text. *)
Theorem no_data_key_reads_unable {F : PyFloat} (environ : string -> option string)
    (zone : Zone) (stop_id name : string) (limit start_time time_range : Z)
    (net : Network) (top : list (string * pyval)) :
  (forall query, snd (HelsinkiTransport.make_graphql_request environ query net)
                 = Returned (PDict top)) ->
  lookup "data" top = None ->
  snd (HelsinkiTransport.get_departures environ zone stop_id limit net)
  = Returned ("Unable to fetch departures for stop ID: " ++ stop_id)%string /\
  snd (HelsinkiTransport.get_timetable environ zone stop_id start_time time_range net)
  = Returned ("Unable to fetch timetable for stop ID: " ++ stop_id)%string /\
  snd (HelsinkiTransport.get_stop_info environ stop_id net)
  = Returned ("Unable to fetch information for stop ID: " ++ stop_id)%string /\
  snd (HelsinkiTransport.find_stop environ name limit net)
  = Returned ("Unable to search for stops with name: " ++ name)%string.
Proof.
  intros Hdoc Hdata.
  unfold HelsinkiTransport.get_departures, HelsinkiTransport.get_timetable,
    HelsinkiTransport.get_stop_info, HelsinkiTransport.find_stop.
  rewrite !snd_bind_lift, !Hdoc. cbn [bind].
  unfold HelsinkiTransport.no_stop, orelse.
  destruct top as [|entry top']; [repeat split | ].
  cbn [truthy negb bind contains]. rewrite Hdata. repeat split.
Qed.

Lemma no_data_key_reads_unable_witness :
  let net := answers (errors_document (F := NoFloat)) in
  let top : list (string * @pyval NoFloat) :=
    [("errors", PList [PDict [("message", PStr "Validation error")]])] in
  ((forall query, snd (HelsinkiTransport.make_graphql_request empty_environ query net)
                  = Returned (PDict top)) /\
   lookup "data" top = None) /\
  snd (HelsinkiTransport.get_departures empty_environ UTC "HSL:1040129" 10 net)
  = Returned "Unable to fetch departures for stop ID: HSL:1040129" /\
  snd (HelsinkiTransport.get_timetable empty_environ UTC "HSL:1040129" 0 3600 net)
  = Returned "Unable to fetch timetable for stop ID: HSL:1040129" /\
  snd (HelsinkiTransport.get_stop_info empty_environ "HSL:1040129" net)
  = Returned "Unable to fetch information for stop ID: HSL:1040129" /\
  snd (HelsinkiTransport.find_stop empty_environ "Arkadia" 10 net)
  = Returned "Unable to search for stops with name: Arkadia".
Proof.
  intros net top.
  split.
  - split; [intros query; reflexivity | reflexivity].
  - exact (no_data_key_reads_unable (F := NoFloat) empty_environ UTC "HSL:1040129"
             "Arkadia" 10 0 3600 net top (fun query => eq_refl) eq_refl).
Defined.

(** X5.  When the "data" of the answer holds no stop (the key is absent or
    its value is null, as for an identifier the API does not know), the three
    stop operations return their "Unable to ..." text. *)
Theorem no_stop_reads_unable {F : PyFloat} (environ : string -> option string)
    (zone : Zone) (stop_id : string) (limit start_time time_range : Z)
    (net : Network) (top d : list (string * pyval)) :
  (forall query, snd (HelsinkiTransport.make_graphql_request environ query net)
                 = Returned (PDict top)) ->
  lookup "data" top = Some (PDict d) ->
  truthy (get_or d "stop" PNone) = false ->
  snd (HelsinkiTransport.get_departures environ zone stop_id limit net)
  = Returned ("Unable to fetch departures for stop ID: " ++ stop_id)%string /\
  snd (HelsinkiTransport.get_timetable environ zone stop_id start_time time_range net)
  = Returned ("Unable to fetch timetable for stop ID: " ++ stop_id)%string /\
  snd (HelsinkiTransport.get_stop_info environ stop_id net)
  = Returned ("Unable to fetch information for stop ID: " ++ stop_id)%string.
Proof.
  intros Hdoc Hdata Hstop.
  unfold HelsinkiTransport.get_departures, HelsinkiTransport.get_timetable,
    HelsinkiTransport.get_stop_info.
  rewrite !snd_bind_lift, !Hdoc. cbn [bind].
  unfold HelsinkiTransport.no_stop, orelse.
  rewrite (lookup_nonempty _ _ _ Hdata).
  cbn [negb bind contains getitem_key get]. rewrite Hdata. cbn [negb bind get].
  rewrite Hstop. repeat split.
Qed.

Lemma no_stop_reads_unable_witness :
  let net := answers (unknown_stop_document (F := NoFloat)) in
  let d : list (string * @pyval NoFloat) := [("stop", PNone)] in
  ((forall query, snd (HelsinkiTransport.make_graphql_request empty_environ query net)
                  = Returned (PDict [("data", PDict d)])) /\
   lookup "data" [("data", PDict d)] = Some (PDict d) /\
   truthy (get_or d "stop" PNone) = false) /\
  snd (HelsinkiTransport.get_departures empty_environ UTC "HSL:0" 10 net)
  = Returned "Unable to fetch departures for stop ID: HSL:0" /\
  snd (HelsinkiTransport.get_timetable empty_environ UTC "HSL:0" 0 3600 net)
  = Returned "Unable to fetch timetable for stop ID: HSL:0" /\
  snd (HelsinkiTransport.get_stop_info empty_environ "HSL:0" net)
  = Returned "Unable to fetch information for stop ID: HSL:0".
Proof.
  intros net d.
  split.
  - split; [intros query; reflexivity | split; reflexivity].
  - exact (no_stop_reads_unable (F := NoFloat) empty_environ UTC "HSL:0" 10 0 3600 net
             [("data", PDict d)] d (fun query => eq_refl) eq_refl eq_refl).
Defined.

(** X6.  When the answer has a "data" key whose value is not an object, as
    in a GraphQL answer with errors and a null data, no operation returns a
    text: each raises [AttributeError], at [data["data"].get(...)]. *)
Theorem data_not_an_object_raises {F : PyFloat} (environ : string -> option string)
    (zone : Zone) (stop_id name : string) (limit start_time time_range : Z)
    (net : Network) (top : list (string * pyval)) (v : pyval) :
  (forall query, snd (HelsinkiTransport.make_graphql_request environ query net)
                 = Returned (PDict top)) ->
  lookup "data" top = Some v ->
  is_object v = false ->
  snd (HelsinkiTransport.get_departures environ zone stop_id limit net)
  = Raised AttributeError /\
  snd (HelsinkiTransport.get_timetable environ zone stop_id start_time time_range net)
  = Raised AttributeError /\
  snd (HelsinkiTransport.get_stop_info environ stop_id net) = Raised AttributeError /\
  snd (HelsinkiTransport.find_stop environ name limit net) = Raised AttributeError.
Proof.
  intros Hdoc Hdata Hv.
  unfold HelsinkiTransport.get_departures, HelsinkiTransport.get_timetable,
    HelsinkiTransport.get_stop_info, HelsinkiTransport.find_stop.
  rewrite !snd_bind_lift, !Hdoc. cbn [bind].
  unfold HelsinkiTransport.no_stop, orelse.
  rewrite (lookup_nonempty _ _ _ Hdata).
  cbn [negb bind contains getitem_key get]. rewrite Hdata. cbn [negb bind].
  destruct v; try discriminate Hv; repeat split.
Qed.

Lemma data_not_an_object_raises_witness :
  let net := answers (null_data_document (F := NoFloat)) in
  let top : list (string * @pyval NoFloat) :=
    [("errors", PList [PDict [("message", PStr "Internal error")]]); ("data", PNone)] in
  ((forall query, snd (HelsinkiTransport.make_graphql_request empty_environ query net)
                  = Returned (PDict top)) /\
   lookup "data" top = Some PNone /\
   is_object (F := NoFloat) PNone = false) /\
  snd (HelsinkiTransport.get_departures empty_environ UTC "HSL:1040129" 10 net)
  = Raised AttributeError /\
  snd (HelsinkiTransport.get_timetable empty_environ UTC "HSL:1040129" 0 3600 net)
  = Raised AttributeError /\
  snd (HelsinkiTransport.get_stop_info empty_environ "HSL:1040129" net)
  = Raised AttributeError /\
  snd (HelsinkiTransport.find_stop empty_environ "Arkadia" 10 net) = Raised AttributeError.
Proof.
  intros net top.
  split.
  - split; [intros query; reflexivity | split; reflexivity].
  - exact (data_not_an_object_raises (F := NoFloat) empty_environ UTC "HSL:1040129"
             "Arkadia" 10 0 3600 net top PNone (fun query => eq_refl) eq_refl eq_refl).
Defined.

(** ** [get_stop_info] *)

(** X7.  For every answer that names a stop, [get_stop_info] returns the
    seven-line description: a field the stop has is printed as it is (a null
    as "None"), a field it lacks as "N/A"; the location type, which the
    query asks for, is not printed. *)
Theorem get_stop_info_describes_stop {F : PyFloat} (environ : string -> option string)
    (stop_id : string) (net : Network) (top d stop : list (string * pyval)) :
  snd (HelsinkiTransport.make_graphql_request environ
         (HelsinkiTransport.stop_info_query stop_id) net)
  = Returned (PDict top) ->
  lookup "data" top = Some (PDict d) ->
  lookup "stop" d = Some (PDict stop) ->
  stop <> [] ->
  let field := fun key => str (get_or stop key (PStr "N/A")) in
  snd (HelsinkiTransport.get_stop_info environ stop_id net)
  = Returned ("Stop Information:" ++ NL
              ++ "Name: " ++ field "name" ++ NL
              ++ "GTFS ID: " ++ field "gtfsId" ++ NL
              ++ "Code: " ++ field "code" ++ NL
              ++ "Description: " ++ field "desc" ++ NL
              ++ "Location: " ++ field "lat" ++ ", " ++ field "lon" ++ NL
              ++ "Zone: " ++ field "zoneId" ++ NL
              ++ "Platform: " ++ field "platformCode" ++ NL)%string.
Proof.
  intros Hdoc Hdata Hstop Hne field.
  unfold HelsinkiTransport.get_stop_info.
  rewrite snd_bind_lift, Hdoc. cbn [bind].
  rewrite (no_stop_false _ _ _ Hdata Hstop Hne).
  cbn [bind getitem_key]. rewrite Hdata. cbn [bind getitem_key]. rewrite Hstop.
  reflexivity.
Qed.

Lemma get_stop_info_describes_stop_witness :
  let net := answers (stop_document (sparse_stop (F := NoFloat))) in
  let d : list (string * @pyval NoFloat) := [("stop", PDict sparse_stop)] in
  (snd (HelsinkiTransport.make_graphql_request empty_environ
          (HelsinkiTransport.stop_info_query "HSL:1040129") net)
   = Returned (PDict [("data", PDict d)]) /\
   lookup "data" [("data", PDict d)] = Some (PDict d) /\
   lookup "stop" d = Some (PDict sparse_stop) /\
   sparse_stop (F := NoFloat) <> []) /\
  snd (HelsinkiTransport.get_stop_info empty_environ "HSL:1040129" net)
  = Returned ("Stop Information:" ++ NL
              ++ "Name: Arkadian puisto" ++ NL
              ++ "GTFS ID: HSL:1040129" ++ NL
              ++ "Code: None" ++ NL
              ++ "Description: N/A" ++ NL
              ++ "Location: N/A, N/A" ++ NL
              ++ "Zone: N/A" ++ NL
              ++ "Platform: N/A" ++ NL)%string.
Proof.
  intros net d.
  assert (Hne : sparse_stop (F := NoFloat) <> []) by discriminate.
  split.
  - split; [reflexivity | split; [reflexivity | split; [reflexivity | exact Hne]]].
  - exact (get_stop_info_describes_stop (F := NoFloat) empty_environ "HSL:1040129" net
             [("data", PDict d)] d sparse_stop eq_refl eq_refl eq_refl Hne).
Defined.

(** ** Batches of stop-times *)

(** X8.  The limit of [get_departures] and the start time of [get_timetable]
    reach the result only through the query: when the API gives the same
    answer, the text is the same, however many stop-times the answer holds.
    Nothing is cut to the limit on this side. *)
Theorem limit_only_in_query {F : PyFloat} (environ : string -> option string)
    (zone : Zone) (stop_id : string) (limit limit' start_time start_time' time_range : Z)
    (net : Network) (data : pyval) :
  (forall query, snd (HelsinkiTransport.make_graphql_request environ query net)
                 = Returned data) ->
  snd (HelsinkiTransport.get_departures environ zone stop_id limit net)
  = snd (HelsinkiTransport.get_departures environ zone stop_id limit' net) /\
  snd (HelsinkiTransport.get_timetable environ zone stop_id start_time time_range net)
  = snd (HelsinkiTransport.get_timetable environ zone stop_id start_time' time_range net).
Proof.
  intros Hdoc.
  unfold HelsinkiTransport.get_departures, HelsinkiTransport.get_timetable.
  rewrite !snd_bind_lift, !Hdoc. split; reflexivity.
Qed.

(** Two stop-times come back although the limit is 1. *)
Lemma limit_only_in_query_witness :
  let net := answers (stop_document (busy_stop (F := NoFloat))) in
  (forall query, snd (HelsinkiTransport.make_graphql_request empty_environ query net)
                 = Returned (stop_document busy_stop)) /\
  snd (HelsinkiTransport.get_departures empty_environ UTC "HSL:1040129" 1 net)
  = Returned ("Departures from Arkadian puisto (HSL:1040129):" ++ NL
              ++ "01:10:00 (Delayed by 30s) - Route 5 to X" ++ NL
              ++ "01:15:00 - Route 7 to Y")%string /\
  snd (HelsinkiTransport.get_departures empty_environ UTC "HSL:1040129" 1 net)
  = snd (HelsinkiTransport.get_departures empty_environ UTC "HSL:1040129" 10 net) /\
  snd (HelsinkiTransport.get_timetable empty_environ UTC "HSL:1040129" 0 3600 net)
  = snd (HelsinkiTransport.get_timetable empty_environ UTC "HSL:1040129" 7200 3600 net).
Proof.
  intros net.
  split; [intros query; reflexivity | ].
  split; [reflexivity | ].
  exact (limit_only_in_query (F := NoFloat) empty_environ UTC "HSL:1040129" 1 10 0 7200
           3600 net (stop_document busy_stop) (fun query => eq_refl)).
Defined.

Lemma mapM_raises {A B : Type} (f : A -> result B) (l : list A) (a : A) (e : exn) :
  In a l -> f a = Raised e -> exists e', mapM f l = Raised e'.
Proof.
  induction l as [|a0 l IH]; intros Hin Hf; [contradiction | ].
  cbn [mapM]. destruct (f a0) as [b | e0] eqn:Hf0; [ | now exists e0].
  destruct Hin as [-> | Hin]; [congruence | ].
  destruct (IH Hin Hf) as [e' ->]. now exists e'.
Qed.

(** X9.  One stop-time that is not an object spoils the batch:
    [get_departures] and [get_timetable] raise, and the lines of the other
    stop-times are lost. *)
Theorem broken_entry_spoils_batch {F : PyFloat} (environ : string -> option string)
    (zone : Zone) (stop_id : string) (limit start_time time_range : Z) (net : Network)
    (top d stop first : list (string * pyval)) (others : list pyval) (entry : pyval) :
  (forall query, snd (HelsinkiTransport.make_graphql_request environ query net)
                 = Returned (PDict top)) ->
  lookup "data" top = Some (PDict d) ->
  lookup "stop" d = Some (PDict stop) ->
  get_or stop "stoptimesWithoutPatterns" (PList []) = PList (PDict first :: others) ->
  In entry others ->
  is_object entry = false ->
  (exists e, snd (HelsinkiTransport.get_departures environ zone stop_id limit net)
             = Raised e) /\
  (exists e, snd (HelsinkiTransport.get_timetable environ zone stop_id start_time
                    time_range net)
             = Raised e).
Proof.
  intros Hdoc Hdata Hstop Htimes Hin Hentry.
  assert (Hne : stop <> []).
  { intros ->. discriminate Htimes. }
  assert (Hbad : HelsinkiTransport.format_departure zone entry
                   (get_or first "serviceDay" (PInt 0)) = Raised AttributeError).
  { destruct entry; try discriminate Hentry; reflexivity. }
  destruct (mapM_raises
              (fun st => HelsinkiTransport.format_departure zone st
                           (get_or first "serviceDay" (PInt 0)))
              (PDict first :: others) entry _ (or_intror Hin) Hbad) as [e He].
  unfold HelsinkiTransport.get_departures, HelsinkiTransport.get_timetable.
  rewrite !snd_bind_lift, !Hdoc. cbn [bind].
  rewrite (no_stop_false _ _ _ Hdata Hstop Hne).
  cbn [bind getitem_key]. rewrite Hdata. cbn [bind getitem_key]. rewrite Hstop.
  cbn [bind get]. rewrite Htimes.
  cbn [truthy negb getitem_index Z.ltb Z.compare Z.to_nat nth_error bind get iter].
  rewrite He. split; exists e; reflexivity.
Qed.

Lemma broken_entry_spoils_batch_witness :
  let net := answers (stop_document (broken_stop (F := NoFloat))) in
  let d : list (string * @pyval NoFloat) := [("stop", PDict broken_stop)] in
  let first : list (string * @pyval NoFloat) :=
    [("scheduledDeparture", PInt 600); ("serviceDay", PInt 0)] in
  ((forall query, snd (HelsinkiTransport.make_graphql_request empty_environ query net)
                  = Returned (PDict [("data", PDict d)])) /\
   lookup "data" [("data", PDict d)] = Some (PDict d) /\
   lookup "stop" d = Some (PDict broken_stop) /\
   get_or (broken_stop (F := NoFloat)) "stoptimesWithoutPatterns" (PList [])
   = PList [PDict first; PNone] /\
   In (PNone (F := NoFloat)) [PNone] /\
   is_object (F := NoFloat) PNone = false) /\
  (exists e, snd (HelsinkiTransport.get_departures empty_environ UTC "HSL:1040129" 10 net)
             = Raised e) /\
  (exists e, snd (HelsinkiTransport.get_timetable empty_environ UTC "HSL:1040129" 0 3600
                    net)
             = Raised e).
Proof.
  intros net d first.
  assert (Hin : In (PNone (F := NoFloat)) [PNone]) by (left; reflexivity).
  split.
  - split; [intros query; reflexivity | ].
    split; [reflexivity | split; [reflexivity | split; [reflexivity | ]]].
    split; [exact Hin | reflexivity].
  - exact (broken_entry_spoils_batch (F := NoFloat) empty_environ UTC "HSL:1040129"
             10 0 3600 net [("data", PDict d)] d broken_stop first [PNone] PNone
             (fun query => eq_refl) eq_refl eq_refl eq_refl Hin eq_refl).
Defined.

(** ** [format_time], its errors and the form of its result *)

(** X10.  [format_time] raises [TypeError] as soon as the service day or the
    offset is not a number (a null, a text, a list, an object). *)
Theorem format_time_wants_numbers {F : PyFloat} (zone : Zone)
    (service_day seconds : pyval) :
  is_number service_day = false \/ is_number seconds = false ->
  HelsinkiTransport.format_time zone service_day seconds = Raised TypeError.
Proof.
  intros [H | H]; destruct service_day, seconds; try discriminate H; reflexivity.
Qed.

Lemma format_time_wants_numbers_witness :
  (is_number (F := NoFloat) PNone = false \/ is_number (F := NoFloat) (PInt 600) = false) /\
  HelsinkiTransport.format_time (F := NoFloat) UTC PNone (PInt 600) = Raised TypeError.
Proof.
  split.
  - left. reflexivity.
  - exact (format_time_wants_numbers (F := NoFloat) UTC PNone (PInt 600)
             (or_introl eq_refl)).
Defined.

Lemma in_years_dec (zone : Zone) (u : Z) : {in_years zone u} + {~ in_years zone u}.
Proof.
  unfold in_years.
  destruct (Z_le_dec MIN_SECONDS (u + utcoffset zone u));
    destruct (Z_le_dec (u + utcoffset zone u) MAX_SECONDS);
    [left; split; assumption | right; lia | right; lia | right; lia].
Qed.

(** X11.  On two integers whose instant [datetime] cannot represent,
    [format_time] raises; with the amended C3 this makes the representable
    instants exactly those it renders. *)
Theorem format_time_beyond_the_years {F : PyFloat} (zone : Zone)
    (service_day seconds : Z) :
  ~ representable zone (service_day + seconds) ->
  HelsinkiTransport.format_time zone (PInt service_day) (PInt seconds)
  = Raised TimestampError.
Proof.
  intros Hnot. unfold HelsinkiTransport.format_time.
  cbn [add as_int bind fromtimestamp]. unfold fromtimestamp_int.
  set (t := service_day + seconds) in *.
  destruct (in_years_dec zone t) as [Ht | Ht];
    [rewrite (local_in_years _ _ Ht) | now rewrite (local_outside _ _ Ht)].
  cbn [bind]. change max_fold_seconds with 86400.
  destruct (in_years_dec zone (t - 86400)) as [Hp | Hp];
    [rewrite (local_in_years _ _ Hp) | now rewrite (local_outside _ _ Hp)].
  cbn [bind].
  replace (t + utcoffset zone t - (t - 86400 + utcoffset zone (t - 86400)) - 86400)
    with (utcoffset zone t - utcoffset zone (t - 86400)) by lia.
  destruct (Z.ltb_spec (utcoffset zone t - utcoffset zone (t - 86400)) 0) as [Hdrop | Hkeep].
  - destruct (in_years_dec zone (t + (utcoffset zone t - utcoffset zone (t - 86400))))
      as [Hf | Hf]; [ | now rewrite (local_outside _ _ Hf)].
    exfalso. apply Hnot. split; [exact Ht | split; [exact Hp | intros _; exact Hf]].
  - exfalso. apply Hnot. split; [exact Ht | split; [exact Hp | intros Hlt; lia]].
Qed.

(** The first second of the year 10000. *)
Lemma format_time_beyond_the_years_witness :
  ~ representable UTC (253402214400 + 86400) /\
  HelsinkiTransport.format_time (F := NoFloat) UTC (PInt 253402214400) (PInt 86400)
  = Raised TimestampError.
Proof.
  assert (H : ~ representable UTC (253402214400 + 86400)).
  { intros [[_ Hhi] _]. vm_compute in Hhi. apply Hhi. reflexivity. }
  split; [exact H | ].
  exact (format_time_beyond_the_years (F := NoFloat) UTC 253402214400 86400 H).
Defined.

Lemma fromtimestamp_int_fields (zone : Zone) (t : Z) (dt : datetime) :
  fromtimestamp_int zone t = Returned dt ->
  let s := (t + utcoffset zone t) mod 86400 in
  dt = {| hour := s / 3600; minute := (s mod 3600) / 60; second := s mod 60 |}.
Proof.
  unfold fromtimestamp_int, local.
  destruct (_ && _); [ | discriminate]. cbn [bind].
  destruct (_ && _); [ | discriminate]. cbn [bind].
  destruct (_ <? 0).
  - destruct (_ && _); [ | discriminate]. cbn [bind]. now intros [= <-].
  - cbn [bind]. now intros [= <-].
Qed.

(** X12.  Whatever the arguments, a text that [format_time] returns has the
    form HH:MM:SS: two digits each, hours below 24, minutes and seconds
    below 60. *)
Theorem format_time_gives_a_clock {F : PyFloat} (zone : Zone)
    (service_day seconds : pyval) (text : string) :
  HelsinkiTransport.format_time zone service_day seconds = Returned text ->
  exists hh mm ss : Z,
    0 <= hh < 24 /\ 0 <= mm < 60 /\ 0 <= ss < 60 /\
    text = (two_digits hh ++ ":" ++ two_digits mm ++ ":" ++ two_digits ss)%string.
Proof.
  unfold HelsinkiTransport.format_time.
  destruct (add service_day seconds) as [timestamp | e]; [ | discriminate]. cbn [bind].
  destruct (fromtimestamp zone timestamp) as [dt | e] eqn:Hdt; [ | discriminate].
  cbn [bind]. intros [= <-].
  assert (Hint : exists t, fromtimestamp_int zone t = Returned dt).
  { unfold fromtimestamp in Hdt.
    destruct (as_int timestamp) as [t | ]; [now exists t | ].
    destruct timestamp; try discriminate Hdt.
    destruct (float_timet x) as [t | ]; [now exists t | discriminate Hdt]. }
  destruct Hint as [t Ht]. apply fromtimestamp_int_fields in Ht. subst dt.
  rewrite strftime_wall_clock. unfold wall_clock.
  set (s := (t + utcoffset zone t) mod 86400).
  assert (Hs : 0 <= s < 86400) by (apply Z.mod_pos_bound; lia).
  exists (s / 3600), (s / 60 mod 60), (s mod 60).
  split; [split; [apply Z.div_pos; lia | apply Z.div_lt_upper_bound; lia] | ].
  split; [apply Z.mod_pos_bound; lia | ].
  split; [apply Z.mod_pos_bound; lia | reflexivity].
Qed.

Lemma format_time_gives_a_clock_witness :
  HelsinkiTransport.format_time (F := NoFloat) UTC (PInt 3600) (PBool true)
  = Returned "01:00:01" /\
  exists hh mm ss : Z,
    0 <= hh < 24 /\ 0 <= mm < 60 /\ 0 <= ss < 60 /\
    "01:00:01" = (two_digits hh ++ ":" ++ two_digits mm ++ ":" ++ two_digits ss)%string.
Proof.
  split; [reflexivity | ].
  exact (format_time_gives_a_clock (F := NoFloat) UTC (PInt 3600) (PBool true) "01:00:01"
           eq_refl).
Defined.

(** ** Lines for sparse records and for arrivals *)

(** X13.  A stop-time without any field is formatted with the defaults: the
    clock of the service day itself, no annotation, route "N/A", and
    "Unknown destination" for a departure, "Unknown origin" for an arrival. *)
Theorem empty_record_reads_defaults {F : PyFloat} (zone : Zone) (service_day : Z) :
  representable zone service_day ->
  HelsinkiTransport.format_departure zone (PDict []) (PInt service_day)
  = Returned (wall_clock (service_day + utcoffset zone service_day)
              ++ " - Route N/A to Unknown destination")%string
  /\
  HelsinkiTransport.format_arrival zone (PDict []) (PInt service_day)
  = Returned (wall_clock (service_day + utcoffset zone service_day)
              ++ " - Route N/A from Unknown origin")%string.
Proof.
  intros Hrep.
  assert (Htime : HelsinkiTransport.format_time zone (PInt service_day) (PInt 0)
                  = Returned (wall_clock (service_day + utcoffset zone service_day))).
  { rewrite <- (Z.add_0_r service_day) in Hrep.
    rewrite (format_time_int zone service_day 0 Hrep).
    now rewrite Z.add_0_r. }
  split.
  - exact (format_departure_line zone [] (PInt service_day) (PStr "N/A") 0 _
             eq_refl Htime eq_refl).
  - exact (format_arrival_line zone [] (PInt service_day) (PStr "N/A") 0 _
             eq_refl Htime eq_refl).
Qed.

Lemma empty_record_reads_defaults_witness :
  representable UTC 45296 /\
  HelsinkiTransport.format_departure (F := NoFloat) UTC (PDict []) (PInt 45296)
  = Returned "12:34:56 - Route N/A to Unknown destination" /\
  HelsinkiTransport.format_arrival (F := NoFloat) UTC (PDict []) (PInt 45296)
  = Returned "12:34:56 - Route N/A from Unknown origin".
Proof.
  assert (H : representable UTC 45296).
  { apply representable_margin; [intros u; simpl; lia | vm_compute; split; discriminate]. }
  split; [exact H | ].
  exact (empty_record_reads_defaults (F := NoFloat) UTC 45296 H).
Defined.

(** X14.  [format_arrival] mirrors [format_departure]: for a record whose
    scheduled arrival and arrival delay are integers, whose trip is an object
    and whose instant is representable, the line is the local HH:MM:SS of
    serviceDay + scheduledArrival, the annotation of the arrival delay,
    " - Route ", the route short name, " from " and the headsign (default
    "Unknown origin"). *)
Theorem arrival_line_of_record {F : PyFloat} (zone : Zone)
    (st trip : list (string * pyval)) (service_day scheduled delay : Z) :
  get_or st "scheduledArrival" (PInt 0) = PInt scheduled ->
  get_or st "arrivalDelay" (PInt 0) = PInt delay ->
  get_or st "trip" (PDict []) = PDict trip ->
  representable zone (service_day + scheduled) ->
  HelsinkiTransport.format_arrival zone (PDict st) (PInt service_day)
  = Returned (wall_clock (service_day + scheduled
                          + utcoffset zone (service_day + scheduled))
              ++ delay_annotation delay ++ " - Route "
              ++ str (get_or trip "routeShortName" (PStr "N/A")) ++ " from "
              ++ str (get_or st "headsign" (PStr "Unknown origin")))%string.
Proof.
  intros Hsched Hdelay Htrip Hrep.
  apply format_arrival_line.
  - exact Hdelay.
  - rewrite Hsched. now apply format_time_int.
  - now rewrite Htrip.
Qed.

Lemma arrival_line_of_record_witness :
  let st := late_and_early (F := NoFloat) in
  (get_or st "scheduledArrival" (PInt 0) = PInt 540 /\
   get_or st "arrivalDelay" (PInt 0) = PInt (-15) /\
   get_or st "trip" (PDict []) = PDict [("routeShortName", PStr "5")] /\
   representable UTC (0 + 540)) /\
  HelsinkiTransport.format_arrival UTC (PDict st) (PInt 0)
  = Returned "00:09:00 (Early by 15s) - Route 5 from X".
Proof.
  intros st.
  assert (H : representable UTC (0 + 540)).
  { apply representable_margin; [intros u; simpl; lia | vm_compute; split; discriminate]. }
  split.
  - split; [reflexivity | split; [reflexivity | split; [reflexivity | exact H]]].
  - exact (arrival_line_of_record (F := NoFloat) UTC st
             [("routeShortName", PStr "5")] 0 540 (-15) eq_refl eq_refl eq_refl H).
Defined.

(** ** [find_stop] and its limit *)

Lemma list_slice_to_map {A B : Type} (f : A -> B) (l : list A) (stop : Z) :
  list_slice_to (map f l) stop = map f (list_slice_to l stop).
Proof.
  unfold list_slice_to. rewrite length_map.
  destruct (stop <? 0); apply firstn_map.
Qed.

(** The stops listed are those of the slice [stops[:limit]]. *)
Lemma find_stop_listing {F : PyFloat} (environ : string -> option string)
    (name : string) (limit : Z) (net : Network)
    (top d : list (string * pyval)) (stops : list (list (string * pyval))) :
  snd (HelsinkiTransport.make_graphql_request environ
         (HelsinkiTransport.find_stop_query name) net)
  = Returned (PDict top) ->
  lookup "data" top = Some (PDict d) ->
  get_or d "stops" (PList []) = PList (map PDict stops) ->
  stops <> [] ->
  exists entries,
    mapM HelsinkiTransport.stop_entry (map PDict (list_slice_to stops limit))
    = Returned entries /\
    List.length entries = List.length (list_slice_to stops limit) /\
    snd (HelsinkiTransport.find_stop environ name limit net)
    = Returned ("Found " ++ str_of_int (Z.of_nat (List.length entries))
                ++ " stop(s) matching '" ++ name ++ "':"
                ++ NL ++ NL ++ String.concat (NL ++ NL) entries)%string.
Proof.
  intros Hreq Hdata Hstops Hne.
  unfold HelsinkiTransport.find_stop.
  rewrite snd_bind_lift, Hreq. cbn [bind]. unfold orelse.
  rewrite (lookup_nonempty _ _ _ Hdata).
  cbn [negb bind contains getitem_key get]. rewrite Hdata. cbn [negb bind get].
  rewrite Hstops.
  destruct stops as [|stop stops']; [contradiction | ].
  cbn [truthy map negb slice_to bind iter len].
  rewrite <- map_cons, list_slice_to_map.
  destruct (stop_entries_of_records (list_slice_to (stop :: stops') limit))
    as [entries [Hentries Hlen]].
  exists entries. rewrite Hentries. cbn [bind].
  rewrite length_map, <- Hlen.
  split; [reflexivity | split; [reflexivity | now rewrite !append_assoc]].
Qed.

(** X15.  When the limit is at least the number of stops found, [find_stop]
    lists every stop and the header counts them all. *)
Theorem find_stop_lists_all {F : PyFloat} (environ : string -> option string)
    (name : string) (limit : Z) (net : Network)
    (top d : list (string * pyval)) (stops : list (list (string * pyval))) :
  snd (HelsinkiTransport.make_graphql_request environ
         (HelsinkiTransport.find_stop_query name) net)
  = Returned (PDict top) ->
  lookup "data" top = Some (PDict d) ->
  get_or d "stops" (PList []) = PList (map PDict stops) ->
  stops <> [] ->
  Z.of_nat (List.length stops) <= limit ->
  exists entries,
    mapM HelsinkiTransport.stop_entry (map PDict stops) = Returned entries /\
    List.length entries = List.length stops /\
    snd (HelsinkiTransport.find_stop environ name limit net)
    = Returned ("Found " ++ str_of_int (Z.of_nat (List.length stops))
                ++ " stop(s) matching '" ++ name ++ "':"
                ++ NL ++ NL ++ String.concat (NL ++ NL) entries)%string.
Proof.
  intros Hreq Hdata Hstops Hne Hlimit.
  destruct (find_stop_listing environ name limit net top d stops Hreq Hdata Hstops Hne)
    as [entries (Hentries & Hlen & Hresult)].
  assert (Hall : list_slice_to stops limit = stops).
  { unfold list_slice_to. destruct (Z.ltb_spec limit 0); [lia | ].
    apply firstn_all2. lia. }
  rewrite Hall in Hentries, Hlen. rewrite Hlen in Hresult.
  exists entries. auto.
Qed.

Lemma find_stop_lists_all_witness :
  let net := answers (stops_document (three_stops (F := NoFloat))) in
  let d : list (string * @pyval NoFloat) := [("stops", PList (map PDict three_stops))] in
  (snd (HelsinkiTransport.make_graphql_request empty_environ
          (HelsinkiTransport.find_stop_query "Arkadia") net)
   = Returned (PDict [("data", PDict d)]) /\
   lookup "data" [("data", PDict d)] = Some (PDict d) /\
   get_or d "stops" (PList []) = PList (map PDict three_stops) /\
   three_stops (F := NoFloat) <> [] /\
   Z.of_nat (List.length (three_stops (F := NoFloat))) <= 10) /\
  exists entries,
    mapM HelsinkiTransport.stop_entry (map PDict (three_stops (F := NoFloat)))
    = Returned entries /\
    List.length entries = 3%nat /\
    snd (HelsinkiTransport.find_stop empty_environ "Arkadia" 10 net)
    = Returned ("Found 3 stop(s) matching 'Arkadia':"
                ++ NL ++ NL ++ String.concat (NL ++ NL) entries)%string.
Proof.
  intros net d.
  assert (Hne : three_stops (F := NoFloat) <> []) by discriminate.
  assert (Hlimit : Z.of_nat (List.length (three_stops (F := NoFloat))) <= 10).
  { cbn. lia. }
  split.
  - split; [reflexivity | split; [reflexivity | split; [reflexivity | ]]].
    split; [exact Hne | exact Hlimit].
  - exact (find_stop_lists_all (F := NoFloat) empty_environ "Arkadia" 10 net
             [("data", PDict d)] d three_stops eq_refl eq_refl eq_refl Hne Hlimit).
Defined.

(** X16.  A negative limit counts from the end: with [limit < 0],
    [find_stop] leaves out the last [-limit] stops and lists the others,
    none at all when fewer than [-limit] were found, under a header that
    counts the stops listed. *)
Theorem find_stop_negative_limit {F : PyFloat} (environ : string -> option string)
    (name : string) (limit : Z) (net : Network)
    (top d : list (string * pyval)) (stops : list (list (string * pyval))) :
  snd (HelsinkiTransport.make_graphql_request environ
         (HelsinkiTransport.find_stop_query name) net)
  = Returned (PDict top) ->
  lookup "data" top = Some (PDict d) ->
  get_or d "stops" (PList []) = PList (map PDict stops) ->
  stops <> [] ->
  limit < 0 ->
  let kept := Z.max 0 (Z.of_nat (List.length stops) + limit) in
  exists entries,
    mapM HelsinkiTransport.stop_entry (map PDict (firstn (Z.to_nat kept) stops))
    = Returned entries /\
    Z.of_nat (List.length entries) = kept /\
    snd (HelsinkiTransport.find_stop environ name limit net)
    = Returned ("Found " ++ str_of_int kept ++ " stop(s) matching '" ++ name ++ "':"
                ++ NL ++ NL ++ String.concat (NL ++ NL) entries)%string.
Proof.
  intros Hreq Hdata Hstops Hne Hlimit kept.
  destruct (find_stop_listing environ name limit net top d stops Hreq Hdata Hstops Hne)
    as [entries (Hentries & Hlen & Hresult)].
  assert (Hslice : list_slice_to stops limit = firstn (Z.to_nat kept) stops).
  { unfold list_slice_to, kept. destruct (Z.ltb_spec limit 0); [ | lia].
    f_equal. lia. }
  rewrite Hslice in Hentries, Hlen.
  assert (Hcount : Z.of_nat (List.length entries) = kept).
  { rewrite Hlen, length_firstn. unfold kept. lia. }
  rewrite Hcount in Hresult.
  exists entries. auto.
Qed.

(** Three stops and limit -5: the header counts 0 and no stop is listed. *)
Lemma find_stop_negative_limit_witness :
  let net := answers (stops_document (three_stops (F := NoFloat))) in
  let d : list (string * @pyval NoFloat) := [("stops", PList (map PDict three_stops))] in
  (snd (HelsinkiTransport.make_graphql_request empty_environ
          (HelsinkiTransport.find_stop_query "Arkadia") net)
   = Returned (PDict [("data", PDict d)]) /\
   lookup "data" [("data", PDict d)] = Some (PDict d) /\
   get_or d "stops" (PList []) = PList (map PDict three_stops) /\
   three_stops (F := NoFloat) <> [] /\
   -5 < 0) /\
  exists entries,
    mapM HelsinkiTransport.stop_entry (@nil (@pyval NoFloat)) = Returned entries /\
    Z.of_nat (List.length entries) = 0 /\
    snd (HelsinkiTransport.find_stop empty_environ "Arkadia" (-5) net)
    = Returned ("Found 0 stop(s) matching 'Arkadia':"
                ++ NL ++ NL ++ String.concat (NL ++ NL) entries)%string.
Proof.
  intros net d.
  assert (Hne : three_stops (F := NoFloat) <> []) by discriminate.
  assert (Hlimit : -5 < 0) by lia.
  split.
  - split; [reflexivity | split; [reflexivity | split; [reflexivity | ]]].
    split; [exact Hne | exact Hlimit].
  - exact (find_stop_negative_limit (F := NoFloat) empty_environ "Arkadia" (-5) net
             [("data", PDict d)] d three_stops eq_refl eq_refl eq_refl Hne Hlimit).
Defined.

(** ** The request to the inference endpoint *)









(** ** The completion *)









(** ** The conversation *)

(** X23.  The conversation [_build_messages] builds ends with the user
    message of the prompt and has at most one message before it, the system
    message.  A system prompt that is not empty is used as given; an empty
    one counts as none, and the default takes its place; the system message
    is left out only when no prompt is given and the default itself is empty,
    which takes [DRAFT_FINNISH_SYSTEM_PROMPT] set to the empty text. *)
Theorem build_messages_conversation {F : PyFloat}
    (import_environ : string -> option string) (prompt : string) :
  (forall c rest,
      DraftFinnish._build_messages import_environ prompt (Some (String c rest))
      = [system_message (String c rest); user_message prompt]) /\
  DraftFinnish._build_messages import_environ prompt (Some EmptyString)
  = DraftFinnish._build_messages import_environ prompt None /\
  (import_environ "DRAFT_FINNISH_SYSTEM_PROMPT" = Some EmptyString ->
   DraftFinnish._build_messages import_environ prompt None = [user_message prompt]) /\
  (import_environ "DRAFT_FINNISH_SYSTEM_PROMPT" <> Some EmptyString ->
   exists c rest,
     DraftFinnish.DEFAULT_SYSTEM_PROMPT import_environ = String c rest /\
     DraftFinnish._build_messages import_environ prompt None
     = [system_message (String c rest); user_message prompt]).
Proof.
  unfold DraftFinnish._build_messages, DraftFinnish.DEFAULT_SYSTEM_PROMPT,
    DraftFinnish.getenv.
  split; [reflexivity | split; [reflexivity | split]].
  - intros ->. reflexivity.
  - intros Hset.
    destruct (import_environ "DRAFT_FINNISH_SYSTEM_PROMPT") as [[|c rest]|].
    + now contradiction Hset.
    + exists c, rest. split; reflexivity.
    + eexists _, _. split; reflexivity.
Qed.

(** With nothing in the environment, an empty system prompt still sends the
    built-in Finnish one. *)
Lemma build_messages_conversation_witness :
  empty_environ "DRAFT_FINNISH_SYSTEM_PROMPT" <> Some EmptyString /\
  DraftFinnish._build_messages (F := NoFloat) empty_environ "Hei" (Some "Vastaa lyhyesti.")
  = [system_message "Vastaa lyhyesti."; user_message "Hei"] /\
  exists c rest,
    DraftFinnish.DEFAULT_SYSTEM_PROMPT empty_environ = String c rest /\
    DraftFinnish._build_messages (F := NoFloat) empty_environ "Hei" None
    = [system_message (String c rest); user_message "Hei"].
Proof.
  assert (Hunset : empty_environ "DRAFT_FINNISH_SYSTEM_PROMPT" <> Some EmptyString)
    by discriminate.
  split; [exact Hunset | split].
  - exact (proj1 (build_messages_conversation (F := NoFloat) empty_environ "Hei")
             "V"%char "astaa lyhyesti.").
  - exact (proj2 (proj2 (proj2 (build_messages_conversation (F := NoFloat)
                                  empty_environ "Hei"))) Hunset).
Defined.
